(** * Ledger and schema migration of the spa member-management system

    A shallow embedding of [aws_utils.py], the three Streamlit form
    handlers of [app.py] that write to the ledger, and the migration
    scripts [migrate_fixed_v2.py] and [migrate_fixed_v3.py].

    Conventions of the embedding.
    - Money amounts are exact decimal numbers; they are represented by
      integers that count minor units.  The forms of [app.py] hand their
      numbers over as Python floats; how a number is encoded for the store
      is not part of the embedding.
    - Everything the Python code takes from its surroundings is an explicit
      argument: the identifier returned by [uuid.uuid4()], the text returned
      by [datetime.now().isoformat()], and, for every call to the store,
      whether the store raises [ClientError] on that call.
    - A DynamoDB item is a Python dict, here a finite map from attribute
      names to values.  A table of transactions is the list of its items
      together with its key schema, because some of the properties below are
      about duplicates of a key.  The members table is keyed by [card_id]
      alone and is a finite map. *)

From stdpp Require Import gmap strings list fin_maps pretty.
From Stdlib Require Import ZArith Lia Ascii.

Local Open Scope Z_scope.
Local Open Scope string_scope.
Local Open Scope list_scope.

(** ** Python values stored in items *)

Inductive value : Type :=
  | VNone                  (* None, also the NULL attribute type *)
  | VStr (s : string)      (* str *)
  | VNum (z : Z).          (* Decimal / number *)

#[global] Instance value_eq_dec : EqDecision value.
Proof. solve_decision. Defined.

Abbreviation dict := (gmap string value).

(** [item.get(k)]: [None] when the attribute is absent. *)
Definition get (k : string) (it : dict) : value := default VNone (it !! k).

(** Truth value of a Python object in [if v], [not v] and [v or d]. *)
Definition truthy (v : value) : bool :=
  match v with
  | VNone => false
  | VStr s => negb (String.eqb s "")
  | VNum z => negb (Z.eqb z 0)
  end.

(** [str(v)]. *)
Definition str (v : value) : string :=
  match v with
  | VNone => "None"
  | VStr s => s
  | VNum z => pretty z
  end.

(** [v is None]. *)
Definition is_None (v : value) : bool :=
  match v with VNone => true | _ => false end.

(** Exceptions the modelled code can meet. *)
Inductive exn : Type :=
  | TypeError
  | KeyError (key : string)
  | AttributeError (name : string)
  | InvalidOperation
  | ClientError.

Inductive result (A : Type) : Type :=
  | Ok (a : A)
  | Raise (e : exn).
Arguments Ok {A} a.
Arguments Raise {A} e.

#[global] Instance result_ret : MRet result := fun A a => Ok a.

#[global] Instance result_bind : MBind result := fun A B k r =>
  match r with
  | Ok a => k a
  | Raise e => Raise e
  end.

#[global] Instance result_fmap : FMap result := fun A B f r =>
  match r with
  | Ok a => Ok (f a)
  | Raise e => Raise e
  end.

(** ** String operations of Python used by the scripts *)

Module PyStr.

(** [s[:n]]. *)
Fixpoint take (n : nat) (s : string) : string :=
  match n, s with
  | S n', String c s' => String c (take n' s')
  | _, _ => ""
  end.

(** [sub in s] for strings. *)
Fixpoint contains (sub s : string) : bool :=
  String.prefix sub s ||
  match s with
  | "" => false
  | String _ s' => contains sub s'
  end.

(** [s.split(sep)] for a one-character separator: the pieces between the
    occurrences of [sep], empty pieces included. *)
Fixpoint split (sep : Ascii.ascii) (s : string) : list string :=
  match s with
  | "" => [""]
  | String c s' =>
      if Ascii.eqb c sep then "" :: split sep s'
      else match split sep s' with
           | [] => [String c ""]
           | p :: ps => String c p :: ps
           end
  end.

(** [c in s] for a character. *)
Fixpoint mem (c : Ascii.ascii) (s : string) : bool :=
  match s with
  | "" => false
  | String c' s' => Ascii.eqb c' c || mem c s'
  end.

End PyStr.

(** ** The record store *)

Module DynamoDB.

(** A table: the attribute names of its primary key, the names of its
    secondary indexes with the attribute each one is keyed by, and its
    items.  No two items of a table have the same key (see [wf]). *)
Record table : Type := Table {
  key_schema : list string;
  indexes : list (string * string);
  items : list dict
}.

Definition key_of (ks : list string) (it : dict) : list value :=
  (fun a => get a it) <$> ks.

(** [put_item] on the item list: an item with the same primary key is
    replaced where it stands, otherwise the item is added. *)
Fixpoint upsert (ks : list string) (it : dict) (l : list dict) : list dict :=
  match l with
  | [] => [it]
  | x :: r =>
      if decide (key_of ks x = key_of ks it) then it :: r
      else x :: upsert ks it r
  end.

Definition put_item (it : dict) (t : table) : table :=
  Table (key_schema t) (indexes t) (upsert (key_schema t) it (items t)).

Definition keys (t : table) : list (list value) :=
  key_of (key_schema t) <$> items t.

Definition wf (t : table) : Prop := NoDup (keys t).

(** [scan()] and [scan(Select='COUNT')]. *)
Definition scan (t : table) : list dict := items t.
Definition count (t : table) : nat := length (items t).

(** [query(IndexName=ix, KeyConditionExpression=Key(attr).eq(v))]: the
    store rejects the call when the table has no index of that name. *)
Definition query (ix : string) (v : string) (t : table) : result (list dict) :=
  match list_find (fun p => p.1 = ix) (indexes t) with
  | Some (_, (_, attr)) =>
      Ok (filter (fun it => get attr it = VStr v) (items t))
  | None => Raise ClientError
  end.

End DynamoDB.

Import DynamoDB.

(** ** [aws_utils.py]: class [AWSClient] *)

(** An item of the members table, with the attributes [add_member] writes. *)
Record member : Type := Member {
  card_id : string;
  name : string;
  top_up_date : string;
  balance : Z;
  created_at : string
}.

Abbreviation members := (gmap string member).
Abbreviation s3_bucket := (gmap string string).

Module AWSClient.

(** The methods the class defines, in the order of the file. *)
Definition methods : list string :=
  [ "__init__"; "_initialize_clients"; "create_members_table";
    "create_transactions_table"; "add_member"; "get_member";
    "update_member"; "delete_member"; "search_members";
    "update_member_balance"; "add_transaction";
    "get_member_transactions"; "upload_signature" ].

Definition defines (name : string) : bool := bool_decide (name ∈ methods).

(** [client.delete_transaction], which [app.py] calls: the class defines
    no method of that name, so the lookup finds nothing. *)
Definition delete_transaction : option (table -> value -> result table) := None.

(** Tables as [create_members_table] and [create_transactions_table]
    make them when they do not exist yet. *)
Definition create_members_table : members := ∅.

Definition create_transactions_table : table :=
  Table ["transaction_id"] [("member_id-index", "member_id")] [].

Definition add_member (fault : bool) (now : string) (t : members)
    (card_id name top_up_date : string) (balance : Z) : members * bool :=
  if fault then (t, false)
  else (<[card_id := Member card_id name top_up_date balance now]> t, true).

Definition get_member (fault : bool) (t : members) (card_id : string) : option member :=
  if fault then None else t !! card_id.

Definition delete_member (fault : bool) (t : members) (card_id : string) : members * bool :=
  if fault then (t, false) else (delete card_id t, true).

(** [SET balance = balance + :val]: the store evaluates the expression on
    the stored item, and rejects it with a [ClientError] when the item
    has no [balance] to add to, which is the case when there is no item. *)
Definition update_member_balance (fault : bool) (t : members)
    (card_id : string) (amount : Z) : members * option Z :=
  if fault then (t, None)
  else match t !! card_id with
       | Some (Member c n d b ts) =>
           (<[card_id := Member c n d (b + amount) ts]> t, Some (b + amount))
       | None => (t, None)
       end.

Definition opt_str (o : option string) : value :=
  match o with Some s => VStr s | None => VNone end.

(** The [Item] dict of [add_transaction]. *)
Definition transaction_item (transaction_id now member_id : string) (amount : Z)
    (signature_key service_notes : option string) : dict :=
  <["transaction_id" := VStr transaction_id]>
  (<["member_id" := VStr member_id]>
  (<["amount" := VNum amount]>
  (<["timestamp" := VStr now]>
  (<["signature_s3_key" := opt_str signature_key]>
  (<["service_notes" := opt_str service_notes]> ∅))))).

Definition add_transaction (fault : bool) (uuid4 now : string) (t : table)
    (member_id : string) (amount : Z)
    (signature_key service_notes : option string) : table * option string :=
  if fault then (t, None)
  else (put_item (transaction_item uuid4 now member_id amount signature_key service_notes) t,
        Some uuid4).

Definition get_member_transactions (fault : bool) (t : table) (member_id : string) : list dict :=
  if fault then []
  else match query "member_id-index" member_id t with
       | Ok l => l
       | Raise _ => []
       end.

(** [upload_signature]: the body put in the bucket is represented by the
    base64 text it is decoded from; [fault] stands for any exception in
    the [try] block. *)
Definition upload_signature (fault : bool) (uuid4 : string) (b : s3_bucket)
    (signature_data member_id : string) : s3_bucket * option string :=
  if fault then (b, None)
  else
    let signature_data :=
      if String.prefix "data:image/png;base64," signature_data
      then nth 1 (PyStr.split ","%char signature_data) ""
      else signature_data in
    let filename := "signatures/" +:+ member_id +:+ "/" +:+ uuid4 +:+ ".png" in
    (<[filename := signature_data]> b, Some filename).

End AWSClient.

(** ** [app.py]: the form handlers that write to the ledger *)

(** What [st.session_state] and the bucket hold.  A table is [None] when
    the AWS client could not be initialised. *)
Record session : Type := Session {
  members_table : option members;
  transactions_table : option table;
  bucket : s3_bucket;
  current_member : option member
}.

(** The calls to the store a handler makes. *)
Inductive api : Type :=
  | GetMember | AddMember | DeleteMember | UpdateMemberBalance
  | AddTransaction | GetMemberTransactions | UploadSignature.

(** What one run of a handler takes from its surroundings. *)
Record env : Type := Env {
  fails : api -> bool;     (* the store raises on this call *)
  tx_uuid4 : string;       (* uuid4() in add_transaction *)
  sig_uuid4 : string;      (* uuid4() in upload_signature *)
  member_now : string;     (* now() in add_member *)
  tx_now : string          (* now() in add_transaction *)
}.

(** The messages the handlers show, named after their meaning; the text of
    each one in [app.py] is given beside it. *)
Inductive message : Type :=
  | error_required_fields            (* 卡号和姓名是必填字段 *)
  | error_card_exists                (* 该卡号已存在，请使用不同的卡号。 *)
  | success_member_added (name : string)   (* 会员 {name} 添加成功! *)
  | error_add_member_failed          (* 添加会员失败。 *)
  | error_members_table              (* 会员表未初始化 *)
  | error_zero_amount                (* 金额不能为零 *)
  | success_signature_saved (key : string) (* ✓ 签名已保存到 S3: {key} *)
  | error_signature_failed           (* ✗ 签名保存失败 *)
  | info_transaction_created (transaction_id : option string)
                                     (* ✅ 交易创建成功 - 交易ID: {transaction_id} *)
  | success_new_balance (new_balance : Z)  (* 扣款/充值 成功! 新余额 *)
  | error_balance_update_failed      (* 更新会员余额失败 *)
  | error_transaction_failed         (* 创建交易记录失败 *)
  | error_database                   (* 数据库未初始化 *)
  | info_select_member               (* 请先从控制面板选择一个会员。 *)
  | success_member_deleted           (* 会员已删除 *)
  | error_delete_failed.             (* 删除会员失败 *)

(** The note of the first transaction of a member, [service_notes] in the
    [add_member_form] handler. *)
Definition initial_top_up_notes : string := "初始充值".

(** Handler of the form [add_member_form], lines 133-162. *)
Definition add_member_form (e : env) (st : session)
    (card_id name top_up_date : string) (initial_balance : Z) : session * list message :=
  if String.eqb card_id "" || String.eqb name "" then (st, [error_required_fields])
  else
    match members_table st with
    | Some mtab =>
        match AWSClient.get_member (fails e GetMember) mtab card_id with
        | Some _ => (st, [error_card_exists])
        | None =>
            let '(mtab', success) :=
              AWSClient.add_member (fails e AddMember) (member_now e) mtab
                card_id name top_up_date initial_balance in
            if success then
              let ttab' :=
                match transactions_table st with
                | Some ttab =>
                    Some (AWSClient.add_transaction (fails e AddTransaction)
                            (tx_uuid4 e) (tx_now e) ttab card_id initial_balance
                            None (Some initial_top_up_notes)).1
                | None => None
                end in
              (Session (Some mtab') ttab' (bucket st) (current_member st),
               [success_member_added name])
            else (Session (Some mtab') (transactions_table st) (bucket st) (current_member st),
                  [error_add_member_failed])
        end
    | None => (st, [error_members_table])
    end.

(** The two kinds of transaction of the radio button. *)
Inductive transaction_type : Type :=
  | charge     (* 消费扣款 *)
  | top_up.    (* 余额充值 *)

(** The amount the form computes from the number entered. *)
Definition signed_amount (ty : transaction_type) (x : Z) : Z :=
  match ty with
  | charge => - Z.abs x
  | top_up => Z.abs x
  end.

(** Lines 320-343 of the handler below: the signature of a charge is
    uploaded, and the key of the blob, if any, is the result. *)
Definition save_signature (e : env) (b : s3_bucket) (ty : transaction_type)
    (signature : option string) (member : member)
    : s3_bucket * option string * list message :=
  match ty, signature with
  | charge, Some img =>
      let '(b', signature_key) :=
        AWSClient.upload_signature (fails e UploadSignature)
          (sig_uuid4 e) b img (card_id member) in
      (b', signature_key,
       match signature_key with
       | Some key => if String.eqb key "" then [error_signature_failed]
                     else [success_signature_saved key]
       | None => [error_signature_failed]
       end)
  | _, _ => (b, None, [])
  end.

(** Lines 353-378 of the handler below: the transaction is written, then
    the balance is updated. *)
Definition record_transaction (e : env) (st : session) (mtab : members) (ttab : table)
    (bucket' : s3_bucket) (member : member) (amount : Z)
    (signature_key : option string) (service_notes : string)
    : session * list message :=
  let '(ttab', transaction_id) :=
    AWSClient.add_transaction (fails e AddTransaction) (tx_uuid4 e) (tx_now e)
      ttab (card_id member) amount signature_key (Some service_notes) in
  let shown := [info_transaction_created transaction_id] in
  if match transaction_id with Some tid => negb (String.eqb tid "") | None => false end
  then
    let '(mtab', new_balance) :=
      AWSClient.update_member_balance (fails e UpdateMemberBalance)
        mtab (card_id member) amount in
    match new_balance with
    | Some nb =>
        let '(Member c n d _ ts) := member in
        (Session (Some mtab') (Some ttab') bucket' (Some (Member c n d nb ts)),
         shown ++ [success_new_balance nb])
    | None =>
        (Session (Some mtab') (Some ttab') bucket' (current_member st),
         shown ++ [error_balance_update_failed])
    end
  else
    (Session (Some mtab) (Some ttab') bucket' (current_member st),
     shown ++ [error_transaction_failed]).

(** Handler of the form [transaction_form], lines 270-382.  [image_data]
    is the picture of the signature canvas, given as the base64 text of its
    PNG encoding; the canvas exists only for a charge. *)
Definition transaction_form (e : env) (st : session) (ty : transaction_type)
    (x : Z) (service_notes : string) (image_data : option string)
    : session * list message :=
  match current_member st with
  | None => (st, [info_select_member])
  | Some member =>
      let amount := signed_amount ty x in
      let signature := match ty with charge => image_data | top_up => None end in
      if Z.eqb amount 0 then (st, [error_zero_amount])
      else
        match members_table st, transactions_table st with
        | Some mtab, Some ttab =>
            let '(bucket', signature_key, msgs1) :=
              save_signature e (bucket st) ty signature member in
            let '(st', msgs2) :=
              record_transaction e st mtab ttab bucket' member amount
                signature_key service_notes in
            (st', msgs1 ++ msgs2)
        | _, _ => (st, [error_database])
        end
  end.

(** The loop [for transaction in transactions] of the delete handler,
    lines 248-252.  The attribute [delete_transaction] is looked up before
    the arguments of the call are evaluated. *)
Fixpoint delete_transactions (ttab : table) (transactions : list dict) : table * option exn :=
  match transactions with
  | [] => (ttab, None)
  | transaction :: rest =>
      match AWSClient.delete_transaction with
      | None => (ttab, Some (AttributeError "delete_transaction"))
      | Some method =>
          match transaction !! "transaction_id" with
          | None => (ttab, Some (KeyError "transaction_id"))
          | Some transaction_id =>
              match method ttab transaction_id with
              | Ok ttab' => delete_transactions ttab' rest
              | Raise ex => (ttab, Some ex)
              end
          end
      end
  end.

(** Handler of the button [confirm_delete], lines 233-255, for the selected
    member's [card_id].  The last component is the exception that ends the
    handler, if any. *)
Definition confirm_delete (e : env) (st : session) (card_id : string)
    : session * list message * option exn :=
  match members_table st with
  | Some mtab =>
      let '(mtab', success) := AWSClient.delete_member (fails e DeleteMember) mtab card_id in
      if success then
        match transactions_table st with
        | Some ttab =>
            let transactions :=
              AWSClient.get_member_transactions (fails e GetMemberTransactions) ttab card_id in
            let '(ttab', raised) := delete_transactions ttab transactions in
            (Session (Some mtab') (Some ttab') (bucket st) (current_member st),
             [success_member_deleted], raised)
        | None =>
            (Session (Some mtab') None (bucket st) (current_member st),
             [success_member_deleted], None)
        end
      else (st, [error_delete_failed], None)
  | None => (st, [error_members_table], None)
  end.

(** The history page's query, lines 394-397. *)
Definition query_member_transactions (e : env) (st : session) (card_id : string) : list dict :=
  match transactions_table st with
  | Some ttab => AWSClient.get_member_transactions (fails e GetMemberTransactions) ttab card_id
  | None => []
  end.

(** ** The ledger as a derived view *)

Definition amount_of (it : dict) : Z :=
  match get "amount" it with
  | VNum z => z
  | _ => 0
  end.

(** The transactions of the table whose owner is [id], and their sum. *)
Definition owned (id : string) (t : table) : list dict :=
  filter (fun it => get "member_id" it = VStr id) (items t).

Definition sum_amounts (l : list dict) : Z :=
  foldr (fun it acc => amount_of it + acc) 0 l.

Definition ledger_sum (id : string) (st : session) : Z :=
  match transactions_table st with
  | Some t => sum_amounts (owned id t)
  | None => 0
  end.

Definition stored_balance (id : string) (st : session) : option Z :=
  match members_table st with
  | Some mtab => balance <$> mtab !! id
  | None => None
  end.


(** The dashboard's button [选择] makes a member of the search result the
    current member, lines 109-111. *)
Definition select_member (m : member) (st : session) : session :=
  Session (members_table st) (transactions_table st) (bucket st) (Some m).

(** No item of the transactions table has this transaction id. *)
Definition unused_id (u : string) (st : session) : Prop :=
  match transactions_table st with
  | Some t => "transaction_id" ∈ key_schema t ∧
              ∀ it, it ∈ items t → get "transaction_id" it ≠ VStr u
  | None => True
  end.

(** A handler run ended on the message of a successful balance update. *)
Definition succeeded (msgs : list message) : Prop :=
  ∃ nb, last msgs = Some (success_new_balance nb).


(** The ledger explains every balance: the transactions of an owner sum
    up to the stored balance, and to zero for an owner without member
    record. *)
Definition consistent (st : session) : Prop :=
  ∀ id, ledger_sum id st = default 0 (stored_balance id st).

(** One step of the ledger service that went well: a member is selected;
    a member is added, the duplicate check having read the table and the
    first transaction being written; a transaction is applied. *)
Inductive ledger_step : session -> session -> Prop :=
  | step_select st m : ledger_step st (select_member m st)
  | step_add_member st e id name top_up_date initial_balance ttab st' :
      transactions_table st = Some ttab ->
      fails e GetMember = false ->
      fails e AddTransaction = false ->
      unused_id (tx_uuid4 e) st ->
      add_member_form e st id name top_up_date initial_balance
        = (st', [success_member_added name]) ->
      ledger_step st st'
  | step_transaction st e ty x notes img st' msgs :
      transaction_form e st ty x notes img = (st', msgs) ->
      succeeded msgs ->
      unused_id (tx_uuid4 e) st ->
      ledger_step st st'.

(** ** The migration scripts *)

(** What the processing of one legacy item takes from its surroundings. *)
Record item_env : Type := ItemEnv {
  put_fails : bool;     (* new_table.put_item raises *)
  uuid4 : string;       (* uuid.uuid4() *)
  now : string          (* datetime.now().isoformat() *)
}.

(** The tally printed at the end of a run; [new_count] is the count of the
    verification scan, made only when something was migrated. *)
Record report : Type := Report {
  migrated_count : nat;
  errors : nat;
  total : nat;
  new_count : option nat
}.

(** [{k: v for k, v in new_item.items() if v is not None}]. *)
Definition strip_None (new_item : dict) : dict :=
  filter (fun kv => kv.2 ≠ VNone) new_item.

(** [create_new_table]: an existing table is used as it is, otherwise a
    table with the composite key is created. *)
Definition create_new_table (existing : option table) : table :=
  match existing with
  | Some t => t
  | None => Table ["member_id"; "transaction_id"] [] []
  end.

(** [x[:8]] on a value: only a string can be sliced. *)
Definition slice8 (v : value) : result string :=
  match v with
  | VStr s => Ok (PyStr.take 8 s)
  | _ => Raise TypeError
  end.

(** ['signatures/' in v]: [v] has to be a string. *)
Definition contains_signatures (v : value) : result bool :=
  match v with
  | VStr s => Ok (PyStr.contains "signatures/" s)
  | _ => Raise TypeError
  end.

Section Scripts.

(** [Decimal(s)] for a string [s], from Python's [decimal] module: the
    number the text denotes, or [InvalidOperation]. *)
Variable Decimal : string -> result Z.

(** [Decimal(str(amount)) if amount is not None else Decimal('0')];
    a number is its own decimal. *)
Definition coerce_amount (amount : value) : result value :=
  match amount with
  | VNone => Ok (VNum 0)
  | VNum z => Ok (VNum z)
  | VStr s => z ← Decimal s; Ok (VNum z)
  end.

(** The dict literal [new_item] of both scripts, lines 141-148 of v3. *)
Definition build_item (ie : item_env) (member_id transaction_id amount timestamp
    signature_s3_key service_notes : value) : result dict :=
  amount' ← coerce_amount amount;
  Ok (<["member_id" := VStr (str member_id)]>
     (<["transaction_id" := VStr (str transaction_id)]>
     (<["amount" := amount']>
     (<["timestamp" := if truthy timestamp then timestamp else VStr (now ie)]>
     (<["signature_s3_key" := signature_s3_key]>
     (<["service_notes" := service_notes]> ∅)))))).

(** *** [migrate_fixed_v3.py] *)

(** Lines 113-133: the owner of a legacy item. *)
Definition v3_resolve_member_id (item : dict) : result value :=
  let member_id := get "member_id" item in
  let signature_s3_key := get "signature_s3_key" item in
  let transaction_id := get "transaction_id" item in
  if is_None member_id then
    derive ← (if truthy signature_s3_key then contains_signatures signature_s3_key
              else Ok false);
    if derive : bool then
      let parts := PyStr.split "/"%char (str signature_s3_key) in
      if (2 <=? length parts)%nat then Ok (VStr (nth 1 parts "")) else Ok member_id
    else
      prefix ← slice8 transaction_id;
      Ok (VStr ("unknown_" +:+ prefix))
  else Ok member_id.

(** Lines 113-151: the item written for a legacy item. *)
Definition v3_new_item (ie : item_env) (item : dict) : result dict :=
  let amount := get "amount" item in
  let service_notes := get "service_notes" item in
  let signature_s3_key := get "signature_s3_key" item in
  let timestamp := get "timestamp" item in
  let transaction_id := get "transaction_id" item in
  member_id ← v3_resolve_member_id item;
  let transaction_id :=
    if truthy transaction_id then transaction_id else VStr (uuid4 ie) in
  new_item ← build_item ie member_id transaction_id amount timestamp
               signature_s3_key service_notes;
  Ok (strip_None new_item).

(** *** [migrate_fixed_v2.py] *)

(** Lines 113-146; [None] is the [continue] of a missing owner. *)
Definition v2_new_item (ie : item_env) (item : dict) : result (option dict) :=
  let member_id := get "membe..." item in
  let amount := get "amount" item in
  let service_notes := get "service_notes" item in
  let signature_s3_key := get "signature_s3_key" item in
  let timestamp := get "timestamp" item in
  let transaction_id := get "transaction_id" item in
  if negb (truthy member_id) then Ok None
  else
    let transaction_id :=
      if truthy transaction_id then transaction_id else VStr (uuid4 ie) in
    new_item ← build_item ie member_id transaction_id amount timestamp
                 signature_s3_key service_notes;
    Ok (Some (strip_None new_item)).

(** *** The loop and the run, the same in both scripts *)

(** One turn of the loop [for i, item in enumerate(old_items)], given the
    item to write: the table, whether the item was migrated, whether an
    error was counted. *)
Definition write_item (ie : item_env) (new_item : result (option dict))
    (new_table : table) : table * bool * bool :=
  match new_item with
  | Ok (Some it) =>
      if put_fails ie then (new_table, false, true)
      else (put_item it new_table, true, false)
  | Ok None => (new_table, false, true)
  | Raise _ => (new_table, false, true)
  end.

Section Loop.

Variable new_item_of : item_env -> dict -> result (option dict).

Fixpoint migrate_loop (envs : nat -> item_env) (i : nat) (old_items : list dict)
    (new_table : table) (migrated errors : nat) : table * nat * nat :=
  match old_items with
  | [] => (new_table, migrated, errors)
  | item :: rest =>
      let '(new_table', ok, err) :=
        write_item (envs i) (new_item_of (envs i) item) new_table in
      migrate_loop envs (S i) rest new_table'
        (if ok then S migrated else migrated)
        (if err then S errors else errors)
  end.

(** [migrate_transactions()], after the credentials were found.
    [scan_fails] and [verify_fails] say whether the scan of the old
    table and the scans of the verification raise; [existing] is the
    new table when it exists already.  The result is the new table and
    the tally, if the run got as far as printing one. *)
Definition migrate (envs : nat -> item_env) (scan_fails verify_fails : bool)
    (old_table : table) (existing : option table) : table * option report :=
  let new_table := create_new_table existing in
  if scan_fails then (new_table, None)
  else
    let old_items := scan old_table in
    let '(new_table', migrated, errs) :=
      migrate_loop envs 0 old_items new_table 0%nat 0%nat in
    (new_table',
     Some (Report migrated errs (length old_items)
             (if (0 <? migrated)%nat && negb verify_fails
              then Some (count new_table') else None))).

End Loop.

Definition v3_item (ie : item_env) (item : dict) : result (option dict) :=
  new_item ← v3_new_item ie item; Ok (Some new_item).

End Scripts.

Module migrate_fixed_v3.
Definition migrate_transactions (Decimal : string -> result Z) :=
  migrate (v3_item Decimal).
End migrate_fixed_v3.

Module migrate_fixed_v2.
Definition migrate_transactions (Decimal : string -> result Z) :=
  migrate (v2_new_item Decimal).
End migrate_fixed_v2.

(** ** The keys a run writes *)

(** The key under which one turn of the loop writes, if it writes. *)
Definition written_key (ks : list string) (new_item : result (option dict))
    : option (list value) :=
  match new_item with
  | Ok (Some it) => Some (key_of ks it)
  | _ => None
  end.

(** The keys of all the items of the legacy table that can be written. *)
Definition target_keys (new_item_of : item_env -> dict -> result (option dict))
    (ks : list string) (ie : item_env) (old_items : list dict) : list (list value) :=
  omap (fun item => written_key ks (new_item_of ie item)) old_items.

(** The key written for an item of the legacy table does not depend on
    what the turn takes from its surroundings. *)
Definition key_stable (new_item_of : item_env -> dict -> result (option dict))
    (ks : list string) (ie0 : item_env) (old_items : list dict) : Prop :=
  ∀ ie item, item ∈ old_items ->
    written_key ks (new_item_of ie item) = written_key ks (new_item_of ie0 item).

(** The key of the item the v3 script writes for a legacy item that has a
    transaction id. *)
Definition v3_key (Decimal : string -> result Z) (item : dict) : option (list value) :=
  match v3_resolve_member_id item, coerce_amount Decimal (get "amount" item) with
  | Ok owner, Ok _ => Some [VStr (str owner); VStr (str (get "transaction_id" item))]
  | _, _ => None
  end.

(** The legacy table is keyed by the transaction id, a non-empty string. *)
Definition has_transaction_id (item : dict) : Prop :=
  truthy (get "transaction_id" item) = true.

(** ** What the specification says, for comparison with the code *)

(** The specification of [create_member]: the first transaction is appended
    if and only if the initial balance is not zero. *)
Definition spec_appends_initial_top_up (initial_balance : Z) : bool :=
  negb (Z.eqb initial_balance 0).

(** The specification of the owner of a migrated item, section 4.3 step 2:
    the explicit field if present and non-empty; otherwise the owner segment
    of a signature key of the form [signatures/<owner_id>/<blob_name>];
    otherwise [unknown_] and the first 8 characters of the transaction id. *)
Definition follows_convention (key : string) : option string :=
  match PyStr.split "/"%char key with
  | [folder; owner_id; blob_name] =>
      if String.eqb folder "signatures" then Some owner_id else None
  | _ => None
  end.

Definition spec_owner_id (item : dict) : result string :=
  let placeholder :=
    prefix ← slice8 (get "transaction_id" item); Ok ("unknown_" +:+ prefix) in
  if truthy (get "member_id" item) then Ok (str (get "member_id" item))
  else
    match get "signature_s3_key" item with
    | VStr key =>
        match follows_convention key with
        | Some owner_id => Ok owner_id
        | None => placeholder
        end
    | _ => placeholder
    end.

(** ** Sample data *)

(** A run in which no call to the store fails. *)
Definition env_ok : env :=
  Env (fun _ => false) "tx-1" "sig-1" "2024-05-01T10:00:00" "2024-05-01T10:00:01".

Definition env_ok2 : env :=
  Env (fun _ => false) "tx-2" "sig-2" "2024-05-02T10:00:00" "2024-05-02T10:00:01".

(** The session of a new installation: both tables exist and are empty. *)
Definition fresh_session : session :=
  Session (Some AWSClient.create_members_table)
          (Some AWSClient.create_transactions_table) ∅ None.

(** The session after member M1 was added with an initial balance of 100. *)
Definition session_M1 : session :=
  (add_member_form env_ok fresh_session "M1" "Ann" "2024-05-01" 100).1.

Definition member_M1 : member :=
  Member "M1" "Ann" "2024-05-01" 100 "2024-05-01T10:00:00".

(** A member that is in no table. *)
Definition member_ghost : member :=
  Member "ghost" "Nobody" "2024-05-01" 0 "2024-05-01T09:00:00".

(** The legacy item of the recovery scenario: no owner, a signature key. *)
Definition legacy_t1 : dict :=
  <["transaction_id" := VStr "t1"]>
  (<["amount" := VNum (-50)]>
  (<["signature_s3_key" := VStr "signatures/00042/sig.png"]> ∅)).

(** The same item with an owner attribute that is the empty string. *)
Definition legacy_empty_owner : dict := <["member_id" := VStr ""]> legacy_t1.

(** An item without owner whose signature key has a folder in front. *)
Definition legacy_nested_key : dict :=
  <["transaction_id" := VStr "t2"]>
  (<["amount" := VNum (-20)]>
  (<["signature_s3_key" := VStr "old/signatures/00042/sig.png"]> ∅)).

(** An item with neither owner nor signature key. *)
Definition legacy_bare : dict :=
  <["transaction_id" := VStr "abcdef12-0000"]> (<["amount" := VNum 30]> ∅).

(** A well-formed legacy item, with its owner under [member_id]. *)
Definition legacy_owned : dict :=
  <["transaction_id" := VStr "t3"]>
  (<["member_id" := VStr "00007"]>
  (<["amount" := VNum 80]>
  (<["timestamp" := VStr "2023-01-01T08:00:00"]> ∅))).

Definition item_env_ok : item_env := ItemEnv false "generated" "2024-06-01T00:00:00".

(** A [Decimal] that accepts no text; the sample amounts are numbers. *)
Definition no_text_amount : string -> result Z := fun _ => Raise InvalidOperation.

(** A run in which only the read of the duplicate check fails. *)
Definition env_read_fails : env :=
  Env (fun call => match call with GetMember => true | _ => false end)
    "tx-9" "sig-9" "2024-05-09T10:00:00" "2024-05-09T10:00:01".

(** The session after M1 was selected and charged 30 with a signature. *)
Definition session_M1_charged : session :=
  (transaction_form env_ok2 (select_member member_M1 session_M1) charge 30
     "massage" (Some "iVBORw0KGgo=")).1.

(** A legacy table with three items. *)
Definition legacy_table : table :=
  Table ["transaction_id"] [("member_id-index", "member_id")]
    [legacy_t1; legacy_bare; legacy_owned].

(** A table with one item that has no transaction id, which a table keyed
    by the transaction id cannot hold, and two runs that differ in the
    identifier drawn. *)
Definition table_without_id : table :=
  Table [] [] [<["member_id" := VStr "00007"]> (<["amount" := VNum 5]> ∅)].

Definition envs_u1 : nat -> item_env := fun _ => ItemEnv false "u1" "2024-06-01T00:00:00".
Definition envs_u2 : nat -> item_env := fun _ => ItemEnv false "u2" "2024-06-02T00:00:00".

(** Runs of the loop: one in which every write succeeds, one in which the
    write of the second item fails. *)
Definition envs_ok : nat -> item_env := fun _ => item_env_ok.

Definition envs_partial : nat -> item_env := fun i =>
  if Nat.eqb i 1 then ItemEnv true "generated" "2024-06-01T00:00:00" else item_env_ok.

(** ** More of [aws_utils.py] and [app.py] *)

(** [create_transactions_table], lines 52-74, with the table that exists
    already, if one does: the error [ResourceInUseException] of the store
    is answered by the existing table. *)
Definition create_transactions_table_in (existing : option table) : table :=
  match existing with
  | Some t => t
  | None => AWSClient.create_transactions_table
  end.

Section Search.

(** [str.lower()], from Python. *)
Variable lower : string -> string.

(** [search_members], lines 127-142; the scan returns the members in an
    order of its own. *)
Definition search_members (fault : bool) (t : members) (search_term : string)
    : list member :=
  if fault then []
  else
    filter (fun member =>
              PyStr.contains (lower search_term) (lower (card_id member))
              || PyStr.contains (lower search_term) (lower (name member)) = true)
      (map_to_list t).*2.

(** The number of members the dashboard shows, lines 92-94 of [app.py]. *)
Definition member_count (fault : bool) (st : session) : option nat :=
  match members_table st with
  | Some t => Some (length (search_members fault t ""))
  | None => None
  end.

End Search.

(** ** [migrate_transactions.py], the first migration script *)

(** Lines 70-89: the item written for a legacy item; [None] is the
    [continue] of an item without owner or transaction id. *)
Definition v1_new_item (ie : item_env) (item : dict) : result (option dict) :=
  let member_id := get "member_id" item in
  let transaction_id := get "transaction_id" item in
  if negb (truthy member_id) || negb (truthy transaction_id) then Ok None
  else
    Ok (Some (strip_None
      (<["member_id" := member_id]>
      (<["transaction_id" := transaction_id]>
      (<["amount" := default (VNum 0) (item !! "amount")]>
      (<["timestamp" := default (VStr "") (item !! "timestamp")]>
      (<["signature_s3_key" := get "signature_s3_key" item]>
      (<["service_notes" := get "service_notes" item]> ∅)))))))).

Module migrate_transactions.

(** The run: the new table is made by [AWSClient.create_transactions_table],
    and the verification prints a sample without counting. *)
Definition migrate_transactions (envs : nat -> item_env) (scan_fails : bool)
    (old_table : table) (existing : option table) : table * option report :=
  let new_table := create_transactions_table_in existing in
  if scan_fails then (new_table, None)
  else
    let old_items := scan old_table in
    let '(new_table', migrated, errs) :=
      migrate_loop v1_new_item envs 0 old_items new_table 0%nat 0%nat in
    (new_table', Some (Report migrated errs (length old_items) None)).

End migrate_transactions.

(** ** [recreate_table_fixed.py] *)

(** [item[k]]. *)
Definition subscript (k : string) (item : dict) : result value :=
  match item !! k with
  | Some v => Ok v
  | None => Raise (KeyError k)
  end.

Module recreate_table_fixed.

(** [recreate_table]: the table that exists is deleted and an empty one
    with the composite key is created; [None] when the creation fails. *)
Definition recreate_table (create_fails : bool) (existing : option table) : option table :=
  if create_fails then None else Some (Table ["member_id"; "transaction_id"] [] []).

(** Lines 98-108: the item written for a legacy item. *)
Definition new_item_of (item : dict) : result dict :=
  member_id ← subscript "member_id" item;
  transaction_id ← subscript "transaction_id" item;
  amount ← subscript "amount" item;
  timestamp ← subscript "timestamp" item;
  Ok (strip_None
    (<["member_id" := member_id]>
    (<["transaction_id" := transaction_id]>
    (<["amount" := amount]>
    (<["timestamp" := timestamp]>
    (<["service_notes" := default (VStr "") (item !! "service_notes")]>
    (<["signature_s3_key" := get "signature_s3_key" item]> ∅))))))).

(** The loop of lines 95-115; it counts the migrated items only. *)
Fixpoint migrate_items (envs : nat -> item_env) (i : nat) (old_items : list dict)
    (new_table : table) (migrated_count : nat) : table * nat :=
  match old_items with
  | [] => (new_table, migrated_count)
  | item :: rest =>
      match new_item_of item with
      | Ok new_item =>
          if put_fails (envs i) then migrate_items envs (S i) rest new_table migrated_count
          else migrate_items envs (S i) rest (put_item new_item new_table) (S migrated_count)
      | Raise _ => migrate_items envs (S i) rest new_table migrated_count
      end
  end.

(** [migrate_with_correct_schema]: the new table, if there is one after the
    run, and the count printed, if the run got that far. *)
Definition migrate_with_correct_schema (envs : nat -> item_env)
    (create_fails scan_fails : bool) (old_table : table) (existing : option table)
    : option table * option nat :=
  match recreate_table create_fails existing with
  | None => (None, None)
  | Some new_table =>
      if scan_fails then (Some new_table, None)
      else
        let '(new_table', migrated_count) :=
          migrate_items envs 0 (scan old_table) new_table 0%nat in
        (Some new_table', Some migrated_count)
  end.

End recreate_table_fixed.

(** ** More sample data *)

(** A legacy item that has all its attributes. *)
Definition legacy_full : dict :=
  <["transaction_id" := VStr "t4"]>
  (<["member_id" := VStr "00009"]>
  (<["amount" := VNum (-15)]>
  (<["timestamp" := VStr "2023-02-02T09:00:00"]>
  (<["signature_s3_key" := VStr "signatures/00009/s.png"]>
  (<["service_notes" := VStr "sauna"]> ∅))))).

(** A legacy item with an owner and nothing else. *)
Definition legacy_owner_only : dict := <["member_id" := VStr "00007"]> ∅.

(** A run in which the signature cannot be uploaded. *)
Definition env_upload_fails : env :=
  Env (fun call => match call with UploadSignature => true | _ => false end)
    "tx-3" "sig-3" "2024-05-03T10:00:00" "2024-05-03T10:00:01".

(** A run in which the transaction cannot be written. *)
Definition env_write_fails : env :=
  Env (fun call => match call with AddTransaction => true | _ => false end)
    "tx-4" "sig-4" "2024-05-04T10:00:00" "2024-05-04T10:00:01".

(** A run in which the balance cannot be updated. *)
Definition env_update_fails : env :=
  Env (fun call => match call with UpdateMemberBalance => true | _ => false end)
    "tx-5" "sig-5" "2024-05-05T10:00:00" "2024-05-05T10:00:01".

(** Lower case of the letters A to Z, enough for the sample texts. *)
Fixpoint ascii_lower (s : string) : string :=
  match s with
  | "" => ""
  | String c s' =>
      let n := Ascii.nat_of_ascii c in
      String (if ((65 <=? n) && (n <=? 90))%nat then Ascii.ascii_of_nat (n + 32) else c)
        (ascii_lower s')
  end.

(** * Properties *)

(** ** The operations on strings and the client, on samples *)

Example split_sig : PyStr.split "/"%char "signatures/00042/sig.png" = ["signatures"; "00042"; "sig.png"].
Proof. reflexivity. Qed.

Example split_trailing : PyStr.split "/"%char "signatures/" = ["signatures"; ""].
Proof. reflexivity. Qed.

Example contains_inner : PyStr.contains "signatures/" "old/signatures/7/a.png" = true.
Proof. reflexivity. Qed.

Example take_short : PyStr.take 8 "t1" = "t1".
Proof. reflexivity. Qed.

Example no_delete_transaction : AWSClient.defines "delete_transaction" = false.
Proof. reflexivity. Qed.

Example upload_key :
  (AWSClient.upload_signature false "u" ∅ "QUJD" "00042").2 = Some "signatures/00042/u.png".
Proof. reflexivity. Qed.

(** ** The store *)

Lemma upsert_elem ks it l : it ∈ upsert ks it l.
Proof.
  induction l as [|x r IH]; simpl.
  - apply list_elem_of_singleton. reflexivity.
  - destruct (decide (key_of ks x = key_of ks it)).
    + apply list_elem_of_here.
    + apply list_elem_of_further, IH.
Qed.

Lemma upsert_keys_elem ks it l k :
  k ∈ key_of ks <$> upsert ks it l <-> k = key_of ks it \/ k ∈ key_of ks <$> l.
Proof.
  induction l as [|x r IH]; simpl.
  - rewrite list_elem_of_singleton. split; [auto|].
    intros [H|H]; [exact H|]. inversion H.
  - destruct (decide (key_of ks x = key_of ks it)) as [Heq|Hne]; simpl.
    + rewrite !elem_of_cons, Heq. tauto.
    + rewrite !elem_of_cons, IH. tauto.
Qed.

Lemma upsert_NoDup ks it l :
  NoDup (key_of ks <$> l) -> NoDup (key_of ks <$> upsert ks it l).
Proof.
  induction l as [|x r IH]; simpl; intros Hnd.
  - apply NoDup_singleton.
  - apply NoDup_cons in Hnd as [Hx Hr].
    destruct (decide (key_of ks x = key_of ks it)) as [Heq|Hne]; simpl.
    + apply NoDup_cons. rewrite <- Heq. auto.
    + apply NoDup_cons. split; [|auto].
      rewrite upsert_keys_elem. intros [H|H]; [congruence|contradiction].
Qed.

(** Writing an item whose key is not in the table appends it. *)
Lemma upsert_fresh ks it l :
  key_of ks it ∉ key_of ks <$> l -> upsert ks it l = l ++ [it].
Proof.
  induction l as [|x r IH]; simpl; intros Hfresh; [reflexivity|].
  rewrite not_elem_of_cons in Hfresh. destruct Hfresh as [Hne Hr].
  destruct (decide (key_of ks x = key_of ks it)) as [Heq|_]; [congruence|].
  rewrite IH by assumption. reflexivity.
Qed.

(** Writing an item whose key is in the table keeps the number of items. *)
Lemma upsert_length_present ks it l :
  key_of ks it ∈ key_of ks <$> l -> length (upsert ks it l) = length l.
Proof.
  induction l as [|x r IH]; simpl; intros Hin; [inversion Hin|].
  destruct (decide (key_of ks x = key_of ks it)) as [Heq|Hne]; simpl; [reflexivity|].
  apply elem_of_cons in Hin as [Hin|Hin]; [congruence|].
  rewrite IH by assumption. reflexivity.
Qed.

Lemma put_item_wf it t : wf t -> wf (put_item it t).
Proof. unfold wf, keys, put_item. simpl. apply upsert_NoDup. Qed.

Lemma put_item_schema it t : key_schema (put_item it t) = key_schema t.
Proof. reflexivity. Qed.

(** ** [apply_transaction] with a zero amount *)

(** C3: with a member selected, a submission of the transaction form whose
    amount is zero shows the zero-amount error and nothing else, and leaves
    the members table, the transactions table, the bucket and the session as
    they were, for every kind of transaction, note and signature and
    whatever the store would answer. *)
Theorem zero_amount_rejected e st m ty x service_notes image_data :
  current_member st = Some m ->
  signed_amount ty x = 0 ->
  transaction_form e st ty x service_notes image_data = (st, [error_zero_amount]).
Proof.
  intros Hm Hz. unfold transaction_form. rewrite Hm, Hz. reflexivity.
Qed.

(** The amount of the form is zero exactly when the number entered is. *)
Lemma signed_amount_zero ty x : signed_amount ty x = 0 <-> x = 0.
Proof. destruct ty; simpl; lia. Qed.

(** ** A failed read in the duplicate check *)

(** C8: [get_member] answers [None] when the store fails exactly as it does
    for a card that is not in the table; so when the read of the duplicate
    check fails and the write succeeds, adding a member under a card id
    that is already in use reports success and replaces the stored member
    by the new one. *)
Theorem failed_read_overwrites e st mtab old card_id name top_up_date initial_balance :
  members_table st = Some mtab ->
  mtab !! card_id = Some old ->
  card_id ≠ "" -> name ≠ "" ->
  fails e GetMember = true ->
  fails e AddMember = false ->
  AWSClient.get_member true mtab card_id = AWSClient.get_member false (delete card_id mtab) card_id
  ∧ (add_member_form e st card_id name top_up_date initial_balance).2 = [success_member_added name]
  ∧ members_table (add_member_form e st card_id name top_up_date initial_balance).1
    = Some (<[card_id := Member card_id name top_up_date initial_balance (member_now e)]> mtab).
Proof.
  intros Hmt Hold Hc Hn Hget Hadd.
  split.
  { unfold AWSClient.get_member. rewrite lookup_delete_eq. reflexivity. }
  unfold add_member_form.
  apply String.eqb_neq in Hc. apply String.eqb_neq in Hn.
  rewrite Hc, Hn, Hmt, Hget, Hadd. simpl.
  split; reflexivity.
Qed.

(** ** Nulls in written items *)

Lemma strip_None_lookup new_item k v :
  strip_None new_item !! k = Some v -> v ≠ VNone ∧ new_item !! k = Some v.
Proof.
  unfold strip_None. intros H.
  apply map_lookup_filter_Some in H as [Hk Hv]. simpl in Hv. auto.
Qed.

Lemma strip_None_no_null new_item k : strip_None new_item !! k ≠ Some VNone.
Proof. intros H. apply strip_None_lookup in H as [H _]. congruence. Qed.

Lemma v3_new_item_stripped Decimal ie item new_item :
  v3_new_item Decimal ie item = Ok new_item -> ∃ d, new_item = strip_None d.
Proof.
  unfold v3_new_item. intros H.
  destruct (v3_resolve_member_id item) as [member_id|]; simpl in H; [|discriminate].
  match type of H with
  | context [build_item ?a ?b ?c ?d ?f ?g ?h ?i] =>
      destruct (build_item a b c d f g h i) as [d0|]; simpl in H; [|discriminate]
  end.
  inversion H. eauto.
Qed.

Lemma v2_new_item_stripped Decimal ie item new_item :
  v2_new_item Decimal ie item = Ok (Some new_item) -> ∃ d, new_item = strip_None d.
Proof.
  unfold v2_new_item. intros H.
  destruct (negb (truthy (get "membe..." item))); [discriminate|].
  match type of H with
  | context [build_item ?a ?b ?c ?d ?f ?g ?h ?i] =>
      destruct (build_item a b c d f g h i) as [d0|]; simpl in H; [|discriminate]
  end.
  inversion H. eauto.
Qed.

(** C10: when the store accepts the write, [add_transaction] returns the new
    transaction id and the table holds the item with both the
    [signature_s3_key] and the [service_notes] attribute, each one the
    explicit null when the caller passed [None]; the items the migration
    scripts v3 and v2 write have no attribute whose value is null. *)
Theorem add_transaction_keeps_nulls uuid now t member_id amount signature_key service_notes :
  let new_item :=
    AWSClient.transaction_item uuid now member_id amount signature_key service_notes in
  let r := AWSClient.add_transaction false uuid now t member_id amount
             signature_key service_notes in
  r.2 = Some uuid
  ∧ new_item ∈ items r.1
  ∧ new_item !! "signature_s3_key" = Some (AWSClient.opt_str signature_key)
  ∧ new_item !! "service_notes" = Some (AWSClient.opt_str service_notes)
  ∧ (signature_key = None -> new_item !! "signature_s3_key" = Some VNone)
  ∧ (service_notes = None -> new_item !! "service_notes" = Some VNone)
  ∧ (∀ Decimal ie item written k,
       v3_new_item Decimal ie item = Ok written -> written !! k ≠ Some VNone)
  ∧ (∀ Decimal ie item written k,
       v2_new_item Decimal ie item = Ok (Some written) -> written !! k ≠ Some VNone).
Proof.
  simpl. repeat split.
  - apply upsert_elem.
  - intros ->. reflexivity.
  - intros ->. reflexivity.
  - intros Decimal ie item written k H.
    apply v3_new_item_stripped in H as [d ->]. apply strip_None_no_null.
  - intros Decimal ie item written k H.
    apply v2_new_item_stripped in H as [d ->]. apply strip_None_no_null.
Qed.

(** ** The owner attribute read by the v2 script *)

Lemma v2_new_item_absent Decimal ie item :
  item !! "membe..." = None -> v2_new_item Decimal ie item = Ok None.
Proof. intros H. unfold v2_new_item, get. rewrite H. reflexivity. Qed.

Lemma v2_loop_absent Decimal envs old_items :
  Forall (fun item : dict => item !! "membe..." = None) old_items ->
  ∀ i new_table migrated errs,
    migrate_loop (v2_new_item Decimal) envs i old_items new_table migrated errs
    = (new_table, migrated, (errs + length old_items)%nat).
Proof.
  induction 1 as [|item rest Hitem _ IH]; intros i new_table migrated errs; simpl.
  - f_equal. lia.
  - rewrite (v2_new_item_absent _ _ _ Hitem). simpl. rewrite IH. f_equal. lia.
Qed.

(** C9: the v2 script reads the owner from the attribute named [membe...];
    when no item of the legacy table has an attribute of that name, as is
    the case for items that keep their owner under [member_id], the run
    counts every item as an error, migrates none and writes nothing to the
    new table. *)
Theorem v2_migrates_nothing Decimal envs verify_fails old_table existing :
  Forall (fun item : dict => item !! "membe..." = None) (scan old_table) ->
  migrate_fixed_v2.migrate_transactions Decimal envs false verify_fails old_table existing
  = (create_new_table existing,
     Some (Report 0 (length (scan old_table)) (length (scan old_table)) None)).
Proof.
  intros H. unfold migrate_fixed_v2.migrate_transactions, migrate.
  rewrite (v2_loop_absent _ _ _ H). reflexivity.
Qed.

(** ** The first transaction of a new member *)

(** The claim of the specification fails for an initial balance of zero:
    the specification appends no transaction then, and the handler appends
    one with amount 0 and the note of the initial top-up. *)
Lemma zero_initial_balance_is_recorded :
  spec_appends_initial_top_up 0 = false
  ∧ query_member_transactions env_ok
      (add_member_form env_ok fresh_session "M1" "Ann" "2024-05-01" 0).1 "M1"
    = [AWSClient.transaction_item "tx-1" "2024-05-01T10:00:01" "M1" 0 None
         (Some initial_top_up_notes)].
Proof. split; reflexivity. Qed.

(** C4 (amended): when a member is added, the transactions table exists and
    the store accepts both writes, the handler writes one transaction whose
    amount is the initial balance and whose note is the note of the initial
    top-up, for every initial balance, zero included. *)
Theorem initial_transaction_always_recorded e st mtab ttab card_id name top_up_date
    initial_balance :
  members_table st = Some mtab ->
  transactions_table st = Some ttab ->
  card_id ≠ "" -> name ≠ "" ->
  AWSClient.get_member (fails e GetMember) mtab card_id = None ->
  fails e AddMember = false ->
  fails e AddTransaction = false ->
  let first :=
    AWSClient.transaction_item (tx_uuid4 e) (tx_now e) card_id initial_balance
      None (Some initial_top_up_notes) in
  add_member_form e st card_id name top_up_date initial_balance
  = (Session
       (Some (<[card_id := Member card_id name top_up_date initial_balance (member_now e)]> mtab))
       (Some (put_item first ttab)) (bucket st) (current_member st),
     [success_member_added name])
  ∧ first ∈ items (put_item first ttab)
  ∧ get "member_id" first = VStr card_id
  ∧ get "amount" first = VNum initial_balance
  ∧ get "service_notes" first = VStr initial_top_up_notes.
Proof.
  intros Hmt Htt Hc Hn Hget Hadd Htx first.
  split; [|split; [apply upsert_elem|repeat split]].
  unfold add_member_form.
  apply String.eqb_neq in Hc. apply String.eqb_neq in Hn.
  rewrite Hc, Hn, Hmt, Hget, Hadd, Htt, Htx. reflexivity.
Qed.

(** ** A transaction for a member that is not in the table *)

(** The claim of the specification fails for an owner that is not in the
    members table: the handler writes the transaction before it touches
    the balance, so the table holds a transaction of that owner afterwards,
    and the message is the one of a failed balance update. *)
Lemma unknown_member_transaction_written :
  stored_balance "ghost" (select_member member_ghost fresh_session) = None
  ∧ query_member_transactions env_ok (select_member member_ghost fresh_session) "ghost" = []
  ∧ query_member_transactions env_ok
      (transaction_form env_ok (select_member member_ghost fresh_session)
         top_up 100 "" None).1 "ghost"
    = [AWSClient.transaction_item "tx-1" "2024-05-01T10:00:01" "ghost" 100 None (Some "")]
  ∧ (transaction_form env_ok (select_member member_ghost fresh_session)
       top_up 100 "" None).2
    = [info_transaction_created (Some "tx-1"); error_balance_update_failed].
Proof. repeat apply conj; reflexivity. Qed.

(** C5 (amended): for an owner that is not in the members table and a
    non-zero amount, the handler writes the transaction, the balance update
    that follows is rejected, the members table and the current member stay
    as they were, and the last message is the failure of the balance update;
    no check of the owner comes before the write. *)
Theorem unknown_member_leaves_orphan e st m mtab ttab ty x service_notes image_data :
  current_member st = Some m ->
  members_table st = Some mtab ->
  transactions_table st = Some ttab ->
  mtab !! card_id m = None ->
  signed_amount ty x ≠ 0 ->
  fails e AddTransaction = false ->
  tx_uuid4 e ≠ "" ->
  let r := transaction_form e st ty x service_notes image_data in
  members_table r.1 = Some mtab
  ∧ current_member r.1 = Some m
  ∧ (∃ signature_key,
       transactions_table r.1
       = Some (put_item (AWSClient.transaction_item (tx_uuid4 e) (tx_now e) (card_id m)
                           (signed_amount ty x) signature_key (Some service_notes)) ttab))
  ∧ last r.2 = Some error_balance_update_failed.
Proof.
  intros Hm Hmt Htt Hnone Hnz Htx Hid r. subst r.
  unfold transaction_form. rewrite Hm, Hmt, Htt.
  apply Z.eqb_neq in Hnz. rewrite Hnz.
  apply String.eqb_neq in Hid.
  destruct (save_signature e (bucket st) ty _ m) as [[bucket' signature_key] msgs1].
  unfold record_transaction, AWSClient.add_transaction, AWSClient.update_member_balance.
  rewrite Htx, Hid, Hnone. simpl negb. cbv iota.
  assert (Hlast : ∀ tail : list message,
            last (msgs1 ++ [info_transaction_created (Some (tx_uuid4 e))]
                    ++ [error_balance_update_failed]) = Some error_balance_update_failed).
  { intros _. rewrite app_assoc. apply last_snoc. }
  destruct (fails e UpdateMemberBalance); simpl; rewrite ?Hm;
    (split; [reflexivity|split; [reflexivity|split; [eauto|apply (Hlast [])]]]).
Qed.

(** ** Deleting a member *)

(** The loop over the transactions of a deleted member stops at the first
    one, on the lookup of the method, and deletes nothing. *)
Lemma delete_transactions_raises ttab transaction rest :
  delete_transactions ttab (transaction :: rest)
  = (ttab, Some (AttributeError "delete_transaction")).
Proof. reflexivity. Qed.

Lemma confirm_delete_keeps_transactions e st mtab ttab card_id :
  members_table st = Some mtab ->
  transactions_table st = Some ttab ->
  fails e DeleteMember = false ->
  query_member_transactions e st card_id ≠ [] ->
  confirm_delete e st card_id
  = (Session (Some (delete card_id mtab)) (Some ttab) (bucket st) (current_member st),
     [success_member_deleted], Some (AttributeError "delete_transaction")).
Proof.
  intros Hmt Htt Hdel Hq. unfold confirm_delete, query_member_transactions in *.
  rewrite Hmt, Htt in *. unfold AWSClient.delete_member. rewrite Hdel.
  destruct (AWSClient.get_member_transactions _ ttab card_id) as [|tr rest];
    [contradiction|].
  rewrite delete_transactions_raises. reflexivity.
Qed.

(** C6 (the code at the failing input): member M1 has one transaction;
    confirming the deletion removes the member, ends on the attribute
    error of the missing method, and the query for the member's
    transactions still answers that transaction. *)
Theorem cascade_delete_leaves_transactions :
  let r := confirm_delete env_ok session_M1 "M1" in
  stored_balance "M1" session_M1 = Some 100
  ∧ r.2 = Some (AttributeError "delete_transaction")
  ∧ stored_balance "M1" r.1.1 = None
  ∧ query_member_transactions env_ok r.1.1 "M1"
    = [AWSClient.transaction_item "tx-1" "2024-05-01T10:00:01" "M1" 100 None
         (Some initial_top_up_notes)].
Proof.
  intros r. subst r.
  split; [|split; [|split]]; reflexivity.
Qed.

(** ** The owner of a migrated item *)

(** The order of the specification fails on the code in two places: an
    owner attribute that is the empty string is kept, although a signature
    key of the agreed form is there; and a signature key that only contains
    [signatures/] further inside yields its second segment, not the
    placeholder. *)
Lemma owner_resolution_differs :
  v3_resolve_member_id legacy_empty_owner = Ok (VStr "")
  ∧ spec_owner_id legacy_empty_owner = Ok "00042"
  ∧ v3_resolve_member_id legacy_nested_key = Ok (VStr "signatures")
  ∧ spec_owner_id legacy_nested_key = Ok "unknown_t2".
Proof. repeat apply conj; reflexivity. Qed.

Example nested_key_owner :
  v3_resolve_member_id legacy_nested_key = Ok (VStr "signatures")
  ∧ spec_owner_id legacy_nested_key = Ok "unknown_t2".
Proof. split; reflexivity. Qed.

Example bare_owner : v3_resolve_member_id legacy_bare = Ok (VStr "unknown_abcdef12").
Proof. reflexivity. Qed.

Lemma split_no_sep sep a b :
  PyStr.mem sep a = false ->
  PyStr.split sep (a +:+ String sep b) = a :: PyStr.split sep b.
Proof.
  induction a as [|c a IH]; simpl; intros Hmem.
  - rewrite Ascii.eqb_refl. reflexivity.
  - apply orb_false_iff in Hmem as [Hc Ha].
    rewrite Hc, IH by assumption. reflexivity.
Qed.

Lemma contains_prefix sub s : String.prefix sub s = true -> PyStr.contains sub s = true.
Proof. intros H. destruct s; simpl in *; rewrite H; reflexivity. Qed.

(** The second segment of a key of the agreed form is the owner. *)
Lemma split_convention owner_id blob_name :
  PyStr.mem "/"%char owner_id = false ->
  PyStr.split "/"%char ("signatures/" +:+ owner_id +:+ "/" +:+ blob_name)
  = "signatures" :: owner_id :: PyStr.split "/"%char blob_name.
Proof.
  intros Hmem.
  change ("signatures/" +:+ owner_id +:+ "/" +:+ blob_name)
    with ("signatures" +:+ String "/"%char (owner_id +:+ String "/"%char blob_name)).
  rewrite split_no_sep by reflexivity.
  rewrite split_no_sep by assumption. reflexivity.
Qed.

Lemma convention_truthy owner_id blob_name :
  truthy (VStr ("signatures/" +:+ owner_id +:+ "/" +:+ blob_name)) = true.
Proof. reflexivity. Qed.

Lemma prefix_app p s : String.prefix p (p +:+ s) = true.
Proof.
  induction p as [|c p IH]; simpl.
  - destruct s; reflexivity.
  - destruct (Ascii.ascii_dec c c) as [_|Hne]; [exact IH|contradiction].
Qed.

Lemma convention_contains owner_id blob_name :
  contains_signatures (VStr ("signatures/" +:+ owner_id +:+ "/" +:+ blob_name)) = Ok true.
Proof.
  unfold contains_signatures. rewrite contains_prefix; [reflexivity|apply prefix_app].
Qed.

Lemma build_item_owner Decimal ie member_id transaction_id amount timestamp
    signature_s3_key service_notes d :
  build_item Decimal ie member_id transaction_id amount timestamp
    signature_s3_key service_notes = Ok d ->
  d !! "member_id" = Some (VStr (str member_id))
  ∧ d !! "transaction_id" = Some (VStr (str transaction_id)).
Proof.
  unfold build_item, mbind, result_bind. intros H.
  destruct (coerce_amount Decimal amount) as [amount'|]; [|discriminate H].
  injection H as <-. split; reflexivity.
Qed.

Lemma v3_new_item_owner Decimal ie item written :
  v3_new_item Decimal ie item = Ok written ->
  ∃ owner, v3_resolve_member_id item = Ok owner
           ∧ written !! "member_id" = Some (VStr (str owner)).
Proof.
  unfold v3_new_item. intros H.
  destruct (v3_resolve_member_id item) as [owner|]; [|discriminate H].
  exists owner. split; [reflexivity|].
  unfold mbind, result_bind in H.
  match type of H with
  | context [build_item ?D ?a ?b ?c ?d ?f ?g ?h] =>
      destruct (build_item D a b c d f g h) as [d0|] eqn:Hb; [|discriminate H]
  end.
  injection H as <-. apply build_item_owner in Hb as [Hb _].
  unfold strip_None. apply map_lookup_filter_Some. split; [exact Hb|discriminate].
Qed.

(** C7 (amended): the v3 script takes the owner of a legacy item (1) from
    the attribute [member_id] whenever that is not null, an empty string
    included; (2) when it is null and the signature key has the form
    [signatures/<owner_id>/<blob_name>], from the owner segment of the key;
    (3) when it is null and the signature key is missing, empty or without
    [signatures/], as [unknown_] followed by the first 8 characters of the
    transaction id, for a transaction id that is a string; the item written
    carries the text of that owner as [member_id]; and the item [t1] with
    signature key [signatures/00042/sig.png] and no owner is written with
    owner [00042], transaction id [t1] and amount -50. *)
Theorem v3_owner_resolution Decimal ie item :
  (get "member_id" item ≠ VNone ->
     v3_resolve_member_id item = Ok (get "member_id" item))
  ∧ (∀ owner_id blob_name,
       get "member_id" item = VNone ->
       get "signature_s3_key" item
         = VStr ("signatures/" +:+ owner_id +:+ "/" +:+ blob_name) ->
       PyStr.mem "/"%char owner_id = false ->
       v3_resolve_member_id item = Ok (VStr owner_id))
  ∧ (∀ t,
       get "member_id" item = VNone ->
       truthy (get "signature_s3_key" item) = false
         ∨ contains_signatures (get "signature_s3_key" item) = Ok false ->
       get "transaction_id" item = VStr t ->
       v3_resolve_member_id item = Ok (VStr ("unknown_" +:+ PyStr.take 8 t)))
  ∧ (∀ written,
       v3_new_item Decimal ie item = Ok written ->
       ∃ owner, v3_resolve_member_id item = Ok owner
                ∧ written !! "member_id" = Some (VStr (str owner)))
  ∧ v3_new_item Decimal ie legacy_t1
    = Ok (<["member_id" := VStr "00042"]>
         (<["transaction_id" := VStr "t1"]>
         (<["amount" := VNum (-50)]>
         (<["timestamp" := VStr (now ie)]>
         (<["signature_s3_key" := VStr "signatures/00042/sig.png"]> ∅))))).
Proof.
  repeat apply conj.
  - intros Hm. unfold v3_resolve_member_id.
    destruct (get "member_id" item); [contradiction|reflexivity|reflexivity].
  - intros owner_id blob_name Hm Hk Hmem. unfold v3_resolve_member_id.
    rewrite Hm, Hk, convention_truthy, convention_contains.
    unfold str, mbind, result_bind, is_None.
    rewrite split_convention by assumption. reflexivity.
  - intros t Hm Hk Ht. unfold v3_resolve_member_id. rewrite Hm, Ht. simpl.
    destruct Hk as [Hk|Hk].
    + rewrite Hk. reflexivity.
    + destruct (truthy (get "signature_s3_key" item)); [rewrite Hk|]; reflexivity.
  - apply v3_new_item_owner.
  - reflexivity.
Qed.

(** ** Running the migration again *)

Lemma keys_put_item it t k :
  k ∈ keys (put_item it t) <-> k = key_of (key_schema t) it \/ k ∈ keys t.
Proof. unfold keys, put_item. simpl. apply upsert_keys_elem. Qed.

Section Rerun.

Variable new_item_of : item_env -> dict -> result (option dict).

Lemma write_item_schema ie r t : key_schema (write_item ie r t).1.1 = key_schema t.
Proof.
  unfold write_item. destruct r as [[it|]|]; try reflexivity.
  destruct (put_fails ie); reflexivity.
Qed.

Lemma write_item_wf ie r t : wf t -> wf (write_item ie r t).1.1.
Proof.
  unfold write_item. destruct r as [[it|]|]; try (intros H; exact H).
  destruct (put_fails ie); simpl; [intros H; exact H|apply put_item_wf].
Qed.

Lemma write_item_keys_sub ie r t k :
  k ∈ keys (write_item ie r t).1.1 ->
  k ∈ keys t \/ written_key (key_schema t) r = Some k.
Proof.
  unfold write_item. destruct r as [[it|]|]; simpl; auto.
  destruct (put_fails ie); simpl; auto.
  rewrite keys_put_item. intros [->|H]; auto.
Qed.

Lemma write_item_keys_mono ie r t k :
  k ∈ keys t -> k ∈ keys (write_item ie r t).1.1.
Proof.
  unfold write_item. destruct r as [[it|]|]; simpl; auto.
  destruct (put_fails ie); simpl; auto.
  rewrite keys_put_item. auto.
Qed.

Lemma write_item_keys_new ie r t k :
  put_fails ie = false ->
  written_key (key_schema t) r = Some k ->
  k ∈ keys (write_item ie r t).1.1.
Proof.
  unfold write_item. intros ->. destruct r as [[it|]|]; simpl; try discriminate.
  intros [= <-]. rewrite keys_put_item. auto.
Qed.

(** The table of a run, whatever the counters. *)
Lemma migrate_loop_table envs old_items :
  ∀ i t m e,
    (migrate_loop new_item_of envs i old_items t m e).1.1
    = (migrate_loop new_item_of envs i old_items t 0%nat 0%nat).1.1.
Proof.
  induction old_items as [|item rest IH]; intros i t m e; simpl; [reflexivity|].
  destruct (write_item (envs i) (new_item_of (envs i) item) t) as [[t' ok] err].
  rewrite IH. symmetry. rewrite IH. reflexivity.
Qed.

Lemma migrate_loop_cons envs i item rest t m e :
  (migrate_loop new_item_of envs i (item :: rest) t m e).1.1
  = (migrate_loop new_item_of envs (S i) rest
       (write_item (envs i) (new_item_of (envs i) item) t).1.1 0%nat 0%nat).1.1.
Proof.
  simpl.
  destruct (write_item (envs i) (new_item_of (envs i) item) t) as [[t' ok] err].
  apply migrate_loop_table.
Qed.

Lemma migrate_loop_schema envs old_items :
  ∀ i t m e,
    key_schema (migrate_loop new_item_of envs i old_items t m e).1.1 = key_schema t.
Proof.
  induction old_items as [|item rest IH]; intros i t m e; [reflexivity|].
  rewrite migrate_loop_cons, IH. apply write_item_schema.
Qed.

Lemma migrate_loop_wf envs old_items :
  ∀ i t m e, wf t -> wf (migrate_loop new_item_of envs i old_items t m e).1.1.
Proof.
  induction old_items as [|item rest IH]; intros i t m e Hwf; [exact Hwf|].
  rewrite migrate_loop_cons. apply IH, write_item_wf, Hwf.
Qed.

Lemma migrate_loop_keys_mono envs old_items k :
  ∀ i t m e, k ∈ keys t -> k ∈ keys (migrate_loop new_item_of envs i old_items t m e).1.1.
Proof.
  induction old_items as [|item rest IH]; intros i t m e Hk; [exact Hk|].
  rewrite migrate_loop_cons. apply IH, write_item_keys_mono, Hk.
Qed.

Lemma key_stable_tail ks ie0 item rest :
  key_stable new_item_of ks ie0 (item :: rest) -> key_stable new_item_of ks ie0 rest.
Proof. intros H ie x Hx. apply H. apply list_elem_of_further, Hx. Qed.

Lemma migrate_loop_keys_sub ie0 envs old_items k :
  ∀ i t m e,
    key_stable new_item_of (key_schema t) ie0 old_items ->
    k ∈ keys (migrate_loop new_item_of envs i old_items t m e).1.1 ->
    k ∈ keys t \/ k ∈ target_keys new_item_of (key_schema t) ie0 old_items.
Proof.
  induction old_items as [|item rest IH]; intros i t m e Hst Hk; [left; exact Hk|].
  rewrite migrate_loop_cons in Hk.
  apply IH in Hk; [|rewrite write_item_schema; eapply key_stable_tail, Hst].
  rewrite write_item_schema in Hk.
  unfold target_keys. simpl.
  destruct Hk as [Hk|Hk].
  - apply write_item_keys_sub in Hk as [Hk|Hk]; [left; exact Hk|right].
    rewrite Hst in Hk by apply list_elem_of_here. rewrite Hk.
    apply list_elem_of_here.
  - right. destruct (written_key (key_schema t) (new_item_of ie0 item));
      [apply list_elem_of_further|]; exact Hk.
Qed.

Lemma migrate_loop_keys_all ie0 envs old_items k :
  (∀ i, put_fails (envs i) = false) ->
  ∀ i t m e,
    key_stable new_item_of (key_schema t) ie0 old_items ->
    k ∈ target_keys new_item_of (key_schema t) ie0 old_items ->
    k ∈ keys (migrate_loop new_item_of envs i old_items t m e).1.1.
Proof.
  intros Hok.
  induction old_items as [|item rest IH]; intros i t m e Hst Hk; [inversion Hk|].
  rewrite migrate_loop_cons.
  unfold target_keys in Hk. simpl in Hk.
  destruct (written_key (key_schema t) (new_item_of ie0 item)) as [k0|] eqn:Hk0.
  - apply elem_of_cons in Hk as [->|Hk].
    + apply migrate_loop_keys_mono, write_item_keys_new; [apply Hok|].
      rewrite Hst by apply list_elem_of_here. exact Hk0.
    + apply IH; rewrite write_item_schema; [eapply key_stable_tail, Hst|exact Hk].
  - apply IH; rewrite write_item_schema; [eapply key_stable_tail, Hst|exact Hk].
Qed.

End Rerun.

Lemma strip_None_get new_item k s :
  new_item !! k = Some (VStr s) -> get k (strip_None new_item) = VStr s.
Proof.
  intros H. unfold get, strip_None.
  rewrite (map_lookup_filter_Some_2 _ _ _ _ H); [reflexivity|discriminate].
Qed.

Lemma build_item_cases Decimal ie member_id transaction_id amount timestamp
    signature_s3_key service_notes :
  (∃ d, build_item Decimal ie member_id transaction_id amount timestamp
          signature_s3_key service_notes = Ok d
        ∧ ∃ a, coerce_amount Decimal amount = Ok a)
  ∨ (∃ ex, build_item Decimal ie member_id transaction_id amount timestamp
             signature_s3_key service_notes = Raise ex
           ∧ coerce_amount Decimal amount = Raise ex).
Proof.
  unfold build_item, mbind, result_bind.
  destruct (coerce_amount Decimal amount) as [a|ex]; [left|right]; eauto.
Qed.

(** With a transaction id in the legacy item, the key the v3 script writes
    under is a function of the item alone. *)
Lemma v3_written_key Decimal ie item :
  has_transaction_id item ->
  written_key ["member_id"; "transaction_id"] (v3_item Decimal ie item)
  = v3_key Decimal item.
Proof.
  unfold has_transaction_id, v3_item, v3_new_item, v3_key. intros Ht. rewrite Ht.
  destruct (v3_resolve_member_id item) as [owner|ex]; [|reflexivity].
  unfold mbind at 1 2 3. unfold result_bind at 1 2 3.
  match goal with
  | |- context [build_item ?D ?e ?a ?b ?c ?d ?f ?g] =>
      destruct (build_item_cases D e a b c d f g) as [(d0 & Hb & a0 & Hc)|(ex & Hb & Hc)];
      rewrite Hb, Hc
  end; [|reflexivity].
  apply build_item_owner in Hb as [Hm Hid].
  unfold written_key, key_of. simpl.
  rewrite (strip_None_get _ _ _ Hm), (strip_None_get _ _ _ Hid). reflexivity.
Qed.

Lemma v3_key_stable Decimal ie0 old_items :
  Forall has_transaction_id old_items ->
  key_stable (v3_item Decimal) ["member_id"; "transaction_id"] ie0 old_items.
Proof.
  intros Hall ie item Hin.
  rewrite Forall_forall in Hall.
  rewrite !v3_written_key by (apply Hall, Hin). reflexivity.
Qed.

Lemma migrate_table new_item_of envs verify_fails old_table existing :
  (migrate new_item_of envs false verify_fails old_table existing).1
  = (migrate_loop new_item_of envs 0 (scan old_table) (create_new_table existing)
       0%nat 0%nat).1.1.
Proof.
  unfold migrate.
  destruct (migrate_loop new_item_of envs 0 (scan old_table) (create_new_table existing)
              0%nat 0%nat) as [[t' m] e].
  reflexivity.
Qed.

(** The keys after a second run are the keys after one complete run, when
    the first of the two runs or the second one is complete. *)
Lemma rerun_same_keys new_item_of ie0 old_items start envs envs1 envs2 k :
  key_stable new_item_of (key_schema start) ie0 old_items ->
  (∀ i, put_fails (envs i) = false) ->
  (∀ i, put_fails (envs1 i) = false) \/ (∀ i, put_fails (envs2 i) = false) ->
  k ∈ keys (migrate_loop new_item_of envs2 0 old_items
              (migrate_loop new_item_of envs1 0 old_items start 0%nat 0%nat).1.1
              0%nat 0%nat).1.1
  <-> k ∈ keys (migrate_loop new_item_of envs 0 old_items start 0%nat 0%nat).1.1.
Proof.
  intros Hst Hok Hcomplete.
  set (first := (migrate_loop new_item_of envs1 0 old_items start 0%nat 0%nat).1.1).
  assert (Hks : key_schema first = key_schema start) by apply migrate_loop_schema.
  split; intros Hk.
  - apply (migrate_loop_keys_sub _ ie0) in Hk; [|rewrite Hks; exact Hst].
    rewrite Hks in Hk. destruct Hk as [Hk|Hk].
    + apply (migrate_loop_keys_sub _ ie0) in Hk; [|exact Hst].
      destruct Hk as [Hk|Hk].
      * apply migrate_loop_keys_mono, Hk.
      * apply (migrate_loop_keys_all _ ie0); assumption.
    + apply (migrate_loop_keys_all _ ie0); assumption.
  - apply (migrate_loop_keys_sub _ ie0) in Hk; [|exact Hst].
    destruct Hcomplete as [H1|H2].
    + apply migrate_loop_keys_mono. destruct Hk as [Hk|Hk].
      * apply migrate_loop_keys_mono, Hk.
      * apply (migrate_loop_keys_all _ ie0); assumption.
    + destruct Hk as [Hk|Hk].
      * apply migrate_loop_keys_mono, migrate_loop_keys_mono, Hk.
      * apply (migrate_loop_keys_all _ ie0); [exact H2|rewrite Hks; exact Hst|].
        rewrite Hks. exact Hk.
Qed.

(** C2: for a legacy table whose items all have a transaction id and a new
    table keyed by owner and transaction id, run the v3 script twice, the
    second time on the table the first run left, with one of the two runs
    free of store failures and the other one failing wherever it may: the
    new table, still keyed by owner and transaction id, then has no two
    items with the same key, and it has as many items, under the same keys,
    as after a single complete run. *)
Theorem migration_rerun_idempotent Decimal envs envs1 envs2 vf vf1 vf2 old_table existing :
  key_schema (create_new_table existing) = ["member_id"; "transaction_id"] ->
  wf (create_new_table existing) ->
  Forall has_transaction_id (scan old_table) ->
  (∀ i, put_fails (envs i) = false) ->
  (∀ i, put_fails (envs1 i) = false) \/ (∀ i, put_fails (envs2 i) = false) ->
  let single :=
    (migrate_fixed_v3.migrate_transactions Decimal envs false vf old_table existing).1 in
  let first :=
    (migrate_fixed_v3.migrate_transactions Decimal envs1 false vf1 old_table existing).1 in
  let second :=
    (migrate_fixed_v3.migrate_transactions Decimal envs2 false vf2 old_table (Some first)).1 in
  key_schema second = ["member_id"; "transaction_id"]
  ∧ wf second ∧ count second = count single ∧ keys second ≡ₚ keys single.
Proof.
  intros Hks Hwf Hids Hok Hcomplete single first second.
  subst single first second.
  unfold migrate_fixed_v3.migrate_transactions. rewrite !migrate_table.
  change (create_new_table (Some ?t)) with t.
  set (start := create_new_table existing) in *.
  assert (Hst : key_stable (v3_item Decimal) (key_schema start) item_env_ok (scan old_table))
    by (rewrite Hks; apply v3_key_stable, Hids).
  assert (Hwf2 : wf (migrate_loop (v3_item Decimal) envs2 0 (scan old_table)
                       (migrate_loop (v3_item Decimal) envs1 0 (scan old_table) start
                          0%nat 0%nat).1.1 0%nat 0%nat).1.1)
    by (apply migrate_loop_wf, migrate_loop_wf, Hwf).
  assert (Hwf1 : wf (migrate_loop (v3_item Decimal) envs 0 (scan old_table) start
                       0%nat 0%nat).1.1)
    by (apply migrate_loop_wf, Hwf).
  assert (Hperm :
    keys (migrate_loop (v3_item Decimal) envs2 0 (scan old_table)
            (migrate_loop (v3_item Decimal) envs1 0 (scan old_table) start
               0%nat 0%nat).1.1 0%nat 0%nat).1.1
    ≡ₚ keys (migrate_loop (v3_item Decimal) envs 0 (scan old_table) start
               0%nat 0%nat).1.1).
  { apply NoDup_Permutation; [exact Hwf2|exact Hwf1|].
    intros k. eapply rerun_same_keys; eassumption. }
  split; [rewrite !migrate_loop_schema; exact Hks|].
  split; [exact Hwf2|]. split; [|exact Hperm].
  apply Permutation_length in Hperm. unfold keys in Hperm.
  rewrite !length_fmap in Hperm. exact Hperm.
Qed.

(** ** The balance and the ledger *)

Lemma key_of_attr ks a x y :
  a ∈ ks -> key_of ks x = key_of ks y -> get a x = get a y.
Proof.
  unfold key_of. induction ks as [|b ks IH]; intros Hin Heq; [inversion Hin|].
  simpl in Heq. injection Heq as Hb Hks.
  apply elem_of_cons in Hin as [->|Hin]; [exact Hb|apply IH; assumption].
Qed.

Lemma sum_amounts_app l1 l2 : sum_amounts (l1 ++ l2) = sum_amounts l1 + sum_amounts l2.
Proof.
  unfold sum_amounts. induction l1 as [|x l1 IH]; simpl; [reflexivity|].
  rewrite IH. lia.
Qed.

(** Writing a transaction under an unused id adds its amount to the sum of
    its owner and to no other sum. *)
Lemma owned_put_fresh id u now owner amount signature_key service_notes t :
  "transaction_id" ∈ key_schema t ->
  (∀ it, it ∈ items t -> get "transaction_id" it ≠ VStr u) ->
  sum_amounts (owned id (put_item
    (AWSClient.transaction_item u now owner amount signature_key service_notes) t))
  = sum_amounts (owned id t) + (if decide (owner = id) then amount else 0).
Proof.
  intros Hks Hfresh. unfold owned, put_item. simpl.
  rewrite upsert_fresh.
  - rewrite filter_app, sum_amounts_app. f_equal.
    rewrite filter_cons, filter_nil.
    change (get "member_id" (AWSClient.transaction_item u now owner amount
              signature_key service_notes)) with (VStr owner).
    destruct (decide (owner = id)) as [->|Hne].
    + rewrite decide_True by reflexivity. unfold sum_amounts. simpl.
      change (amount_of (AWSClient.transaction_item u now id amount
                signature_key service_notes)) with amount. lia.
    + rewrite decide_False by congruence. reflexivity.
  - intros Hin. apply list_elem_of_fmap in Hin as (it & Heq & Hit).
    apply (Hfresh it Hit). symmetry in Heq.
    apply (key_of_attr _ "transaction_id") in Heq; [|exact Hks].
    rewrite Heq. reflexivity.
Qed.

Lemma succeeded_snoc msgs msg :
  succeeded (msgs ++ [msg]) -> ∃ nb, msg = success_new_balance nb.
Proof. intros [nb H]. rewrite last_snoc in H. injection H as ->. eauto. Qed.

(** The balance after an update the store accepted. *)
Lemma update_member_balance_lookup mtab c amount id :
  balance <$> (AWSClient.update_member_balance false mtab c amount).1 !! id
  = if decide (id = c) then (fun b => b + amount) <$> (balance <$> mtab !! c)
    else balance <$> mtab !! id.
Proof.
  unfold AWSClient.update_member_balance.
  destruct (mtab !! c) as [[c0 n0 d0 b ts0]|] eqn:Hc; simpl.
  - destruct (decide (id = c)) as [->|Hne].
    + rewrite lookup_insert_eq. reflexivity.
    + rewrite lookup_insert_ne by congruence. reflexivity.
  - destruct (decide (id = c)) as [->|Hne]; [rewrite Hc|]; reflexivity.
Qed.

(** What a successful write of a transaction and its balance did. *)
Lemma record_transaction_success e st mtab ttab bucket' c n d nb0 ts amount
    signature_key service_notes st' msgs :
  record_transaction e st mtab ttab bucket' (Member c n d nb0 ts) amount
    signature_key service_notes = (st', msgs) ->
  succeeded msgs ->
  ∃ b, balance <$> mtab !! c = Some b
    ∧ st' = Session (Some (AWSClient.update_member_balance false mtab c amount).1)
              (Some (put_item (AWSClient.transaction_item (tx_uuid4 e) (tx_now e) c
                                 amount signature_key (Some service_notes)) ttab))
              bucket' (Some (Member c n d (b + amount) ts)).
Proof.
  unfold record_transaction, AWSClient.add_transaction. intros H Hs.
  destruct (fails e AddTransaction); simpl in H.
  { injection H as <- <-. destruct Hs as [nb Hs]. discriminate Hs. }
  destruct (negb (String.eqb (tx_uuid4 e) "")).
  2:{ injection H as <- <-. destruct Hs as [nb Hs]. discriminate Hs. }
  unfold AWSClient.update_member_balance in *.
  destruct (fails e UpdateMemberBalance).
  { injection H as <- <-. destruct Hs as [nb Hs]. discriminate Hs. }
  destruct (mtab !! c) as [[c0 n0 d0 b ts0]|] eqn:Hc.
  2:{ injection H as <- <-. destruct Hs as [nb Hs]. discriminate Hs. }
  injection H as <- <-. exists b. split; reflexivity.
Qed.

(** What a successful run of the transaction form did. *)
Lemma transaction_form_success e st ty x service_notes image_data st' msgs :
  transaction_form e st ty x service_notes image_data = (st', msgs) ->
  succeeded msgs ->
  ∃ c n d nb0 ts mtab ttab b signature_key bucket',
    current_member st = Some (Member c n d nb0 ts)
    ∧ members_table st = Some mtab
    ∧ transactions_table st = Some ttab
    ∧ balance <$> mtab !! c = Some b
    ∧ st' = Session (Some (AWSClient.update_member_balance false mtab c (signed_amount ty x)).1)
              (Some (put_item (AWSClient.transaction_item (tx_uuid4 e) (tx_now e) c
                                 (signed_amount ty x) signature_key (Some service_notes)) ttab))
              bucket' (Some (Member c n d (b + signed_amount ty x) ts)).
Proof.
  unfold transaction_form. intros H Hs.
  destruct (current_member st) as [[c n d nb0 ts]|] eqn:Hm;
    [|injection H as <- <-; destruct Hs as [nb Hs]; discriminate Hs].
  destruct (signed_amount ty x =? 0)%Z;
    [injection H as <- <-; destruct Hs as [nb Hs]; discriminate Hs|].
  destruct (members_table st) as [mtab|] eqn:Hmt;
    [|injection H as <- <-; destruct Hs as [nb Hs]; discriminate Hs].
  destruct (transactions_table st) as [ttab|] eqn:Htt;
    [|injection H as <- <-; destruct Hs as [nb Hs]; discriminate Hs].
  destruct (save_signature e (bucket st) ty _ _) as [[bucket' signature_key] msgs1].
  destruct (record_transaction e st mtab ttab bucket' _ _ signature_key service_notes)
    as [st1 msgs2] eqn:Hrec.
  injection H as <- <-.
  apply record_transaction_success in Hrec as (b & Hb & ->).
  - exists c, n, d, nb0, ts, mtab, ttab, b, signature_key, bucket'. auto.
  - destruct Hs as [nb Hs]. exists nb.
    unfold record_transaction in Hrec.
    destruct (AWSClient.add_transaction _ _ _ _ _ _ _ _) as [ttab' tid].
    destruct (match tid with Some t => negb (String.eqb t "") | None => false end).
    + destruct (AWSClient.update_member_balance _ _ _ _) as [mtab' [nb'|]];
        injection Hrec as <- <-; rewrite last_app in Hs; exact Hs.
    + injection Hrec as <- <-. rewrite last_app in Hs. exact Hs.
Qed.


(** What a successful run of the form for a new member did, when the card
    is not in use and the first transaction was written. *)
Lemma add_member_form_success e st mtab ttab id name top_up_date initial_balance st' :
  members_table st = Some mtab ->
  transactions_table st = Some ttab ->
  mtab !! id = None ->
  fails e AddTransaction = false ->
  add_member_form e st id name top_up_date initial_balance
    = (st', [success_member_added name]) ->
  st' = Session
          (Some (<[id := Member id name top_up_date initial_balance (member_now e)]> mtab))
          (Some (put_item (AWSClient.transaction_item (tx_uuid4 e) (tx_now e) id
                             initial_balance None (Some initial_top_up_notes)) ttab))
          (bucket st) (current_member st).
Proof.
  intros Hmt Htt Hnone Htx. unfold add_member_form.
  destruct (String.eqb id "" || String.eqb name ""); [discriminate|].
  rewrite Hmt, Htt. unfold AWSClient.get_member. rewrite Hnone.
  replace (if fails e GetMember then None else None) with (@None member)
    by (destruct (fails e GetMember); reflexivity).
  unfold AWSClient.add_member, AWSClient.add_transaction. rewrite Htx.
  destruct (fails e AddMember); [discriminate|].
  simpl. intros [= <-]. reflexivity.
Qed.


(** ** Every balance, after any steps that went well *)

Lemma add_member_form_checked e st id name top_up_date initial_balance st' :
  fails e GetMember = false ->
  add_member_form e st id name top_up_date initial_balance
    = (st', [success_member_added name]) ->
  ∃ mtab, members_table st = Some mtab ∧ mtab !! id = None.
Proof.
  intros Hget. unfold add_member_form, AWSClient.get_member. rewrite Hget.
  destruct (String.eqb id "" || String.eqb name ""); [discriminate|].
  destruct (members_table st) as [mtab|]; [|discriminate].
  destruct (mtab !! id) as [old|] eqn:Hold; [discriminate|].
  intros _. eauto.
Qed.

Lemma ledger_step_consistent st st' :
  consistent st -> ledger_step st st' -> consistent st'.
Proof.
  intros Hc Hstep.
  destruct Hstep as [st m|st e id name date B ttab st' Htt Hget Htx Hid Hadd
                    |st e ty x notes img st' msgs Hrun Hs Hid].
  - exact Hc.
  - destruct (add_member_form_checked _ _ _ _ _ _ _ Hget Hadd) as (mtab & Hmt & Hnone).
    apply (add_member_form_success _ _ _ _ _ _ _ _ _ Hmt Htt Hnone Htx) in Hadd.
    subst st'. unfold unused_id in Hid. rewrite Htt in Hid. destruct Hid as [Hks Hfresh].
    intros id'. specialize (Hc id').
    unfold ledger_sum, stored_balance in *. rewrite Htt, Hmt in Hc.
    cbn [transactions_table members_table].
    rewrite owned_put_fresh, Hc by assumption.
    destruct (decide (id = id')) as [->|Hne].
    + rewrite lookup_insert_eq, Hnone. simpl. lia.
    + rewrite lookup_insert_ne by exact Hne. lia.
  - apply transaction_form_success in Hrun
      as (c & n & d & nb0 & ts & mtab & ttab & b & key & bucket' & Hm & Hmt & Htt & Hb & ->);
      [|exact Hs].
    unfold unused_id in Hid. rewrite Htt in Hid. destruct Hid as [Hks Hfresh].
    intros id'. specialize (Hc id').
    unfold ledger_sum, stored_balance in *. rewrite Htt, Hmt in Hc.
    cbn [transactions_table members_table].
    rewrite owned_put_fresh, Hc, update_member_balance_lookup by assumption.
    destruct (decide (c = id')) as [->|Hne].
    + rewrite decide_True, Hb by reflexivity. simpl. lia.
    + rewrite decide_False by congruence. lia.
Qed.

(** X19: whatever members are added, selected and charged or topped up, in
    any order, as long as every step goes well: the stored balance of every
    member is the sum of the amounts of the member's transactions. *)
Lemma stored_balances_explained st st' id b :
  consistent st ->
  rtc ledger_step st st' ->
  stored_balance id st' = Some b ->
  ledger_sum id st' = b.
Proof.
  intros Hc Hsteps Hb.
  assert (Hc' : consistent st').
  { induction Hsteps as [st|st st1 st2 Hstep _ IH]; [exact Hc|].
    apply IH; [eapply ledger_step_consistent; eassumption|exact Hb]. }
  rewrite (Hc' id), Hb. reflexivity.
Qed.

Lemma fresh_session_consistent : consistent fresh_session.
Proof. intros id. reflexivity. Qed.

(** * The theorems at sample inputs *)


Example M1_balance_70 :
  stored_balance "M1" session_M1_charged = Some 70
  ∧ ledger_sum "M1" session_M1_charged = 70
  ∧ length (query_member_transactions env_ok session_M1_charged "M1") = 2%nat.
Proof. repeat apply conj; reflexivity. Qed.

(** The legacy table is migrated with a failure, then once more. *)
Lemma migration_rerun_idempotent_witness :
  let single :=
    (migrate_fixed_v3.migrate_transactions no_text_amount envs_ok false false
       legacy_table None).1 in
  let first :=
    (migrate_fixed_v3.migrate_transactions no_text_amount envs_partial false false
       legacy_table None).1 in
  let second :=
    (migrate_fixed_v3.migrate_transactions no_text_amount envs_ok false false
       legacy_table (Some first)).1 in
  key_schema second = ["member_id"; "transaction_id"]
  ∧ wf second ∧ count second = count single ∧ keys second ≡ₚ keys single.
Proof.
  apply (migration_rerun_idempotent no_text_amount envs_ok envs_partial envs_ok
           false false false legacy_table None).
  - reflexivity.
  - apply NoDup_nil_2.
  - repeat constructor.
  - intros i. reflexivity.
  - right. intros i. reflexivity.
Defined.

Example migration_counts :
  count (migrate_fixed_v3.migrate_transactions no_text_amount envs_partial false false
           legacy_table None).1 = 2%nat
  ∧ count (migrate_fixed_v3.migrate_transactions no_text_amount envs_ok false false
             legacy_table
             (Some (migrate_fixed_v3.migrate_transactions no_text_amount envs_partial
                      false false legacy_table None).1)).1 = 3%nat
  ∧ (migrate_fixed_v3.migrate_transactions no_text_amount envs_partial false false
       legacy_table None).2 = Some (Report 2 1 3 (Some 2%nat)).
Proof. repeat apply conj; reflexivity. Qed.

(** A charge of nothing for M1. *)
Lemma zero_amount_rejected_witness :
  transaction_form env_ok (select_member member_M1 session_M1) charge 0
    "massage" (Some "iVBORw0KGgo=")
  = (select_member member_M1 session_M1, [error_zero_amount]).
Proof.
  apply (zero_amount_rejected env_ok (select_member member_M1 session_M1) member_M1
           charge 0 "massage" (Some "iVBORw0KGgo=")); reflexivity.
Defined.

(** A member is added with an initial balance of zero. *)
Lemma initial_transaction_always_recorded_witness :
  add_member_form env_ok fresh_session "M2" "Bea" "2024-05-01" 0
  = (Session
       (Some (<["M2" := Member "M2" "Bea" "2024-05-01" 0 (member_now env_ok)]> ∅))
       (Some (put_item (AWSClient.transaction_item (tx_uuid4 env_ok) (tx_now env_ok) "M2" 0
                          None (Some initial_top_up_notes))
                AWSClient.create_transactions_table))
       (bucket fresh_session) (current_member fresh_session),
     [success_member_added "Bea"]).
Proof.
  apply (initial_transaction_always_recorded env_ok fresh_session ∅
           AWSClient.create_transactions_table "M2" "Bea" "2024-05-01" 0);
    (reflexivity || discriminate).
Defined.

(** A top-up for a member that is in no table. *)
Lemma unknown_member_leaves_orphan_witness :
  members_table (transaction_form env_ok (select_member member_ghost fresh_session)
                   top_up 100 "" None).1 = Some ∅
  ∧ last (transaction_form env_ok (select_member member_ghost fresh_session)
            top_up 100 "" None).2 = Some error_balance_update_failed.
Proof.
  destruct (unknown_member_leaves_orphan env_ok (select_member member_ghost fresh_session)
              member_ghost ∅ AWSClient.create_transactions_table top_up 100 "" None)
    as (Hmembers & _ & _ & Hlast); try reflexivity; try discriminate.
  split; [exact Hmembers|exact Hlast].
Defined.

(** The recovery scenario of the specification. *)
Lemma v3_owner_resolution_witness :
  v3_resolve_member_id legacy_t1 = Ok (VStr "00042")
  ∧ v3_resolve_member_id legacy_bare = Ok (VStr "unknown_abcdef12")
  ∧ v3_resolve_member_id legacy_owned = Ok (VStr "00007").
Proof.
  split; [|split].
  - apply (proj1 (proj2 (v3_owner_resolution no_text_amount item_env_ok legacy_t1))
             "00042" "sig.png"); reflexivity.
  - apply (proj1 (proj2 (proj2 (v3_owner_resolution no_text_amount item_env_ok legacy_bare)))
             "abcdef12-0000"); [reflexivity|left; reflexivity|reflexivity].
  - apply (proj1 (v3_owner_resolution no_text_amount item_env_ok legacy_owned)).
    discriminate.
Defined.

(** M1 exists, the read of the duplicate check fails, M1 is overwritten. *)
Lemma failed_read_overwrites_witness :
  (add_member_form env_read_fails session_M1 "M1" "Eve" "2024-05-09" 5).2
    = [success_member_added "Eve"]
  ∧ stored_balance "M1" (add_member_form env_read_fails session_M1 "M1" "Eve" "2024-05-09" 5).1
    = Some 5.
Proof.
  destruct (failed_read_overwrites env_read_fails session_M1
              (<["M1" := member_M1]> ∅) member_M1 "M1" "Eve" "2024-05-09" 5)
    as (_ & Hmsg & Htab); try reflexivity; try discriminate.
  split; [exact Hmsg|].
  unfold stored_balance. rewrite Htab. reflexivity.
Defined.

(** The v2 script on the legacy table, whose items have no such attribute. *)
Lemma v2_migrates_nothing_witness :
  migrate_fixed_v2.migrate_transactions no_text_amount envs_ok false false legacy_table None
  = (create_new_table None, Some (Report 0 3 3 None)).
Proof.
  apply (v2_migrates_nothing no_text_amount envs_ok false legacy_table None).
  repeat constructor.
Defined.

(** Without a transaction id in the legacy item every run draws a new one,
    and the second run adds an item. *)
Example rerun_without_id :
  count (migrate_fixed_v3.migrate_transactions no_text_amount envs_u1 false false
           table_without_id None).1 = 1%nat
  ∧ count (migrate_fixed_v3.migrate_transactions no_text_amount envs_u2 false false
             table_without_id
             (Some (migrate_fixed_v3.migrate_transactions no_text_amount envs_u1
                      false false table_without_id None).1)).1 = 2%nat.
Proof. split; reflexivity. Qed.

(** * Further properties of the code *)

(** ** The form for a new member *)

(** X1: after a member was added under a card id, adding a member under the
    same card id, with a name and with the duplicate check reading the
    table, is refused with the message that the card exists, and changes
    nothing. *)
Theorem second_add_member_rejected e1 e2 st id name top_up_date initial_balance st1
    name2 top_up_date2 initial_balance2 :
  add_member_form e1 st id name top_up_date initial_balance
    = (st1, [success_member_added name]) ->
  fails e2 GetMember = false ->
  name2 ≠ "" ->
  add_member_form e2 st1 id name2 top_up_date2 initial_balance2 = (st1, [error_card_exists]).
Proof.
  intros Hfirst Hget Hname.
  assert (Hst1 : id ≠ "" ∧ ∃ mtab new, members_table st1 = Some (<[id := new]> mtab)).
  { unfold add_member_form in Hfirst.
    destruct (String.eqb id "") eqn:Hid; [discriminate|].
    destruct (String.eqb name ""); [discriminate|]. simpl in Hfirst.
    split; [apply String.eqb_neq, Hid|].
    destruct (members_table st) as [mtab|]; [|discriminate].
    destruct (AWSClient.get_member _ mtab id); [discriminate|].
    unfold AWSClient.add_member in Hfirst.
    destruct (fails e1 AddMember); [discriminate|].
    injection Hfirst as <-. eauto. }
  destruct Hst1 as (Hid & mtab & new & Hmt).
  unfold add_member_form, AWSClient.get_member.
  apply String.eqb_neq in Hid. apply String.eqb_neq in Hname.
  rewrite Hid, Hname, Hmt, Hget, lookup_insert_eq. reflexivity.
Qed.

(** X2: the form for a new member changes the session only when it reports
    success: with any other message the members table, the transactions
    table, the bucket and the current member are what they were. *)
Theorem add_member_form_writes_on_success e st id name top_up_date initial_balance :
  (add_member_form e st id name top_up_date initial_balance).2 ≠ [success_member_added name] ->
  (add_member_form e st id name top_up_date initial_balance).1 = st.
Proof.
  unfold add_member_form, AWSClient.add_member. destruct st as [mt tt b cm]. simpl.
  destruct (String.eqb id "" || String.eqb name ""); [reflexivity|].
  destruct mt as [mtab|]; [|reflexivity].
  destruct (AWSClient.get_member _ mtab id); [reflexivity|].
  destruct (fails e AddMember); simpl; [reflexivity|].
  intros H. contradiction H. reflexivity.
Qed.

(** ** Deleting a member *)

Lemma delete_transactions_table ttab transactions :
  (delete_transactions ttab transactions).1 = ttab.
Proof. destruct transactions; reflexivity. Qed.

(** X3: confirming the deletion of a member never changes the transactions
    table nor the bucket, whatever the store answers; and when the handler
    ends on an exception, it is the attribute error of the missing method. *)
Theorem confirm_delete_keeps_ledger e st id :
  transactions_table (confirm_delete e st id).1.1 = transactions_table st
  ∧ bucket (confirm_delete e st id).1.1 = bucket st
  ∧ (∀ ex, (confirm_delete e st id).2 = Some ex -> ex = AttributeError "delete_transaction").
Proof.
  unfold confirm_delete, AWSClient.delete_member.
  destruct (members_table st) as [mtab|]; [|repeat split; discriminate].
  destruct (fails e DeleteMember); [repeat split; discriminate|].
  destruct (transactions_table st) as [ttab|] eqn:Htt; [|repeat split; discriminate].
  pose proof (delete_transactions_table ttab
                (AWSClient.get_member_transactions (fails e GetMemberTransactions) ttab id))
    as Htab.
  destruct (AWSClient.get_member_transactions (fails e GetMemberTransactions) ttab id)
    as [|transaction rest]; simpl.
  - repeat split. discriminate.
  - repeat split. intros ex [= <-]. reflexivity.
Qed.

(** ** The transaction form, when a call to the store fails *)

(** X4: when the transaction cannot be written, the balance is not touched:
    the members table, the transactions table and the current member are
    what they were. *)
Theorem failed_write_changes_no_balance e st ty x service_notes image_data :
  fails e AddTransaction = true ->
  members_table (transaction_form e st ty x service_notes image_data).1 = members_table st
  ∧ transactions_table (transaction_form e st ty x service_notes image_data).1
    = transactions_table st
  ∧ current_member (transaction_form e st ty x service_notes image_data).1
    = current_member st.
Proof.
  intros Htx. unfold transaction_form.
  destruct (current_member st) as [m|] eqn:Hm; [|rewrite ?Hm; auto].
  destruct (signed_amount ty x =? 0)%Z; [rewrite ?Hm; auto|].
  destruct (members_table st) as [mtab|] eqn:Hmt; [|rewrite ?Hm, ?Hmt; auto].
  destruct (transactions_table st) as [ttab|] eqn:Htt; [|rewrite ?Hm, ?Hmt, ?Htt; auto].
  destruct (save_signature e (bucket st) ty _ m) as [[bucket' signature_key] msgs1].
  unfold record_transaction, AWSClient.add_transaction. rewrite Htx. simpl.
  rewrite ?Hm. auto.
Qed.

(** X5: when the transaction of an existing member was written and the
    balance update fails, the stored balance stays and the sum of the
    member's transactions moves by the amount: the transaction is in the
    ledger without being in the balance, and the form says that the balance
    update failed. *)
Theorem failed_update_leaves_orphan e st m mtab ttab old ty x service_notes image_data :
  current_member st = Some m ->
  members_table st = Some mtab ->
  transactions_table st = Some ttab ->
  mtab !! card_id m = Some old ->
  signed_amount ty x ≠ 0 ->
  fails e AddTransaction = false ->
  tx_uuid4 e ≠ "" ->
  fails e UpdateMemberBalance = true ->
  unused_id (tx_uuid4 e) st ->
  stored_balance (card_id m) (transaction_form e st ty x service_notes image_data).1
    = Some (balance old)
  ∧ ledger_sum (card_id m) (transaction_form e st ty x service_notes image_data).1
    = ledger_sum (card_id m) st + signed_amount ty x
  ∧ last (transaction_form e st ty x service_notes image_data).2
    = Some error_balance_update_failed.
Proof.
  intros Hm Hmt Htt Hold Hnz Htx Hid Hup Hunused.
  unfold unused_id in Hunused. rewrite Htt in Hunused. destruct Hunused as [Hks Hfresh].
  unfold transaction_form. rewrite Hm, Hmt, Htt.
  apply Z.eqb_neq in Hnz. rewrite Hnz.
  apply String.eqb_neq in Hid.
  destruct (save_signature e (bucket st) ty _ m) as [[bucket' signature_key] msgs1].
  unfold record_transaction, AWSClient.add_transaction, AWSClient.update_member_balance.
  rewrite Htx, Hid, Hup. simpl negb. cbv iota. cbv zeta.
  cbn [fst snd].
  split; [|split].
  - unfold stored_balance. cbn [members_table]. rewrite Hold. reflexivity.
  - unfold ledger_sum. cbn [transactions_table]. rewrite Htt.
    rewrite owned_put_fresh, decide_True by (reflexivity || assumption). reflexivity.
  - rewrite app_assoc. apply last_snoc.
Qed.

(** X6: a signature that cannot be uploaded does not stop a charge: the
    bucket stays as it was, the transaction is written with a null
    signature key, the balance of the member goes down by the amount, and
    the form shows the failed upload before the new balance. *)
Theorem charge_without_signature e st m mtab ttab old x service_notes img :
  current_member st = Some m ->
  members_table st = Some mtab ->
  transactions_table st = Some ttab ->
  mtab !! card_id m = Some old ->
  x ≠ 0 ->
  fails e UploadSignature = true ->
  fails e AddTransaction = false ->
  tx_uuid4 e ≠ "" ->
  fails e UpdateMemberBalance = false ->
  bucket (transaction_form e st charge x service_notes (Some img)).1 = bucket st
  ∧ transactions_table (transaction_form e st charge x service_notes (Some img)).1
    = Some (put_item (AWSClient.transaction_item (tx_uuid4 e) (tx_now e) (card_id m)
                        (- Z.abs x) None (Some service_notes)) ttab)
  ∧ stored_balance (card_id m) (transaction_form e st charge x service_notes (Some img)).1
    = Some (balance old - Z.abs x)
  ∧ (transaction_form e st charge x service_notes (Some img)).2
    = [error_signature_failed; info_transaction_created (Some (tx_uuid4 e));
       success_new_balance (balance old - Z.abs x)].
Proof.
  intros Hm Hmt Htt Hold Hx Hup Htx Hid Hbal.
  unfold transaction_form. rewrite Hm, Hmt, Htt.
  assert (Hnz : (signed_amount charge x =? 0)%Z = false)
    by (apply Z.eqb_neq; simpl; lia).
  rewrite Hnz. apply String.eqb_neq in Hid.
  unfold save_signature, AWSClient.upload_signature. rewrite Hup.
  unfold record_transaction, AWSClient.add_transaction, AWSClient.update_member_balance.
  rewrite Htx, Hid, Hbal, Hold. destruct old as [c n d b ts]. destruct m as [c' n' d' b' ts'].
  simpl negb. cbv iota zeta. cbn [fst snd balance card_id signed_amount].
  split; [reflexivity|split; [reflexivity|split]].
  - unfold stored_balance. cbn [members_table]. rewrite lookup_insert_eq. reflexivity.
  - reflexivity.
Qed.

(** ** The key of an uploaded signature *)

Lemma split_none sep s : PyStr.mem sep s = false -> PyStr.split sep s = [s].
Proof.
  induction s as [|c s IH]; simpl; intros Hmem; [reflexivity|].
  apply orb_false_iff in Hmem as [Hc Hs]. rewrite Hc, IH by assumption. reflexivity.
Qed.

(** X7: the key under which [upload_signature] stores the signature of a
    member leads the v3 script back to that member: a legacy item without
    owner whose signature key is that key is given the member's id as
    owner, for every id without a slash. *)
Theorem uploaded_key_recovers_owner fault uuid b signature_data member_id key item :
  PyStr.mem "/"%char member_id = false ->
  (AWSClient.upload_signature fault uuid b signature_data member_id).2 = Some key ->
  get "member_id" item = VNone ->
  get "signature_s3_key" item = VStr key ->
  v3_resolve_member_id item = Ok (VStr member_id).
Proof.
  intros Hmem Hup Hm Hk. unfold AWSClient.upload_signature in Hup.
  destruct fault; [discriminate|]. injection Hup as <-.
  unfold v3_resolve_member_id. rewrite Hm, Hk.
  change ("signatures/" +:+ member_id +:+ "/" +:+ uuid +:+ ".png")
    with ("signatures/" +:+ member_id +:+ "/" +:+ (uuid +:+ ".png")).
  rewrite convention_truthy, convention_contains.
  unfold str, mbind, result_bind, is_None.
  rewrite split_convention by assumption. reflexivity.
Qed.

(** X8: [upload_signature] stores the text of a data URL without its
    prefix, and any other text as it is, under the key it returns; when
    the upload fails the bucket is unchanged and there is no key. *)
Theorem upload_signature_body uuid b payload member_id :
  let key := "signatures/" +:+ member_id +:+ "/" +:+ uuid +:+ ".png" in
  (PyStr.mem ","%char payload = false ->
     AWSClient.upload_signature false uuid b ("data:image/png;base64," +:+ payload) member_id
     = (<[key := payload]> b, Some key))
  ∧ (String.prefix "data:image/png;base64," payload = false ->
     AWSClient.upload_signature false uuid b payload member_id
     = (<[key := payload]> b, Some key))
  ∧ AWSClient.upload_signature true uuid b payload member_id = (b, None).
Proof.
  intros key. split; [|split; [|reflexivity]].
  - intros Hmem. unfold AWSClient.upload_signature.
    rewrite prefix_app.
    change ("data:image/png;base64," +:+ payload)
      with ("data:image/png;base64" +:+ String ","%char payload).
    rewrite split_no_sep by reflexivity. rewrite split_none by assumption.
    reflexivity.
  - intros Hprefix. unfold AWSClient.upload_signature. rewrite Hprefix. reflexivity.
Qed.

(** ** The history query on a migrated table *)

Lemma write_item_indexes ie r t : indexes (write_item ie r t).1.1 = indexes t.
Proof.
  unfold write_item. destruct r as [[it|]|]; try reflexivity.
  destruct (put_fails ie); reflexivity.
Qed.

Lemma migrate_loop_indexes new_item_of envs old_items :
  ∀ i t m e, indexes (migrate_loop new_item_of envs i old_items t m e).1.1 = indexes t.
Proof.
  induction old_items as [|item rest IH]; intros i t m e; [reflexivity|].
  rewrite migrate_loop_cons, IH. apply write_item_indexes.
Qed.

Lemma migrate_indexes new_item_of envs scan_fails verify_fails old_table :
  indexes (migrate new_item_of envs scan_fails verify_fails old_table None).1 = [].
Proof.
  unfold migrate. destruct scan_fails; [reflexivity|].
  pose proof (migrate_loop_indexes new_item_of envs (scan old_table) 0
                (create_new_table None) 0%nat 0%nat) as H.
  destruct (migrate_loop new_item_of envs 0 (scan old_table) (create_new_table None)
              0%nat 0%nat) as [[t' m] e].
  exact H.
Qed.

Lemma recreate_items_indexes envs old_items :
  ∀ i t m, indexes (recreate_table_fixed.migrate_items envs i old_items t m).1 = indexes t.
Proof.
  induction old_items as [|item rest IH]; intros i t m; simpl; [reflexivity|].
  destruct (recreate_table_fixed.new_item_of item) as [new_item|]; [|apply IH].
  destruct (put_fails (envs i)); [apply IH|]. rewrite IH. reflexivity.
Qed.

Lemma no_index_no_history fault t id :
  indexes t = [] -> AWSClient.get_member_transactions fault t id = [].
Proof.
  intros H. unfold AWSClient.get_member_transactions, query. rewrite H.
  destruct fault; reflexivity.
Qed.

(** X9: the table the scripts v2 and v3 create and fill, and the one
    [recreate_table_fixed] makes, have no index on the owner; the history
    query of the client, which asks that index, answers the empty list for
    every member on such a table, also through the session of the
    application, which takes the table as it finds it. *)
Theorem migrated_table_has_no_history Decimal envs scan_fails verify_fails create_fails
    old_table existing e mtab b cm id t :
  (t = (migrate_fixed_v3.migrate_transactions Decimal envs scan_fails verify_fails
          old_table None).1
   ∨ t = (migrate_fixed_v2.migrate_transactions Decimal envs scan_fails verify_fails
            old_table None).1
   ∨ (recreate_table_fixed.migrate_with_correct_schema envs create_fails scan_fails
        old_table existing).1 = Some t) ->
  AWSClient.get_member_transactions (fails e GetMemberTransactions) t id = []
  ∧ query_member_transactions e
      (Session mtab (Some (create_transactions_table_in (Some t))) b cm) id = [].
Proof.
  intros Ht.
  assert (Hix : indexes t = []).
  { destruct Ht as [->|[->|Ht]].
    - apply migrate_indexes.
    - apply migrate_indexes.
    - unfold recreate_table_fixed.migrate_with_correct_schema,
        recreate_table_fixed.recreate_table in Ht.
      destruct create_fails; [discriminate|].
      destruct scan_fails; [injection Ht as <-; reflexivity|].
      pose proof (recreate_items_indexes envs (scan old_table) 0
                    (Table ["member_id"; "transaction_id"] [] []) 0%nat) as H.
      destruct (recreate_table_fixed.migrate_items envs 0 (scan old_table)
                  (Table ["member_id"; "transaction_id"] [] []) 0%nat) as [t' m].
      injection Ht as <-. exact H. }
  split; [apply no_index_no_history, Hix|].
  unfold query_member_transactions. simpl. apply no_index_no_history, Hix.
Qed.

(** ** The tally of a migration run *)

Lemma migrate_loop_tally new_item_of envs old_items :
  ∀ i t m e,
    ((migrate_loop new_item_of envs i old_items t m e).1.2
     + (migrate_loop new_item_of envs i old_items t m e).2
     = m + e + length old_items)%nat.
Proof.
  induction old_items as [|item rest IH]; intros i t m e; simpl; [lia|].
  destruct (write_item (envs i) (new_item_of (envs i) item) t) as [[t' ok] err] eqn:Hw.
  rewrite IH.
  assert (Hone : ok = negb err).
  { unfold write_item in Hw. destruct (new_item_of (envs i) item) as [[it|]|];
      try (injection Hw as <- <- <-; reflexivity).
    destruct (put_fails (envs i)); injection Hw as <- <- <-; reflexivity. }
  subst ok. destruct err; simpl; lia.
Qed.

Lemma migrate_tally new_item_of envs scan_fails verify_fails old_table existing rep :
  (migrate new_item_of envs scan_fails verify_fails old_table existing).2 = Some rep ->
  (migrated_count rep + errors rep = total rep)%nat
  ∧ total rep = length (scan old_table).
Proof.
  unfold migrate. destruct scan_fails; [discriminate|].
  pose proof (migrate_loop_tally new_item_of envs (scan old_table) 0
                (create_new_table existing) 0%nat 0%nat) as H.
  destruct (migrate_loop new_item_of envs 0 (scan old_table) (create_new_table existing)
              0%nat 0%nat) as [[t' m] e].
  intros [= <-]. simpl in *. split; [lia|reflexivity].
Qed.

(** X10: in the tally of a run of any of the three migration scripts every
    item of the legacy table is counted exactly once, as migrated or as an
    error: the two counts add up to the total, which is the number of items
    scanned. *)
Theorem tally_adds_up Decimal envs scan_fails verify_fails old_table existing rep :
  (migrate_fixed_v3.migrate_transactions Decimal envs scan_fails verify_fails
     old_table existing).2 = Some rep
  ∨ (migrate_fixed_v2.migrate_transactions Decimal envs scan_fails verify_fails
       old_table existing).2 = Some rep
  ∨ (migrate_transactions.migrate_transactions envs scan_fails old_table existing).2
    = Some rep ->
  (migrated_count rep + errors rep = total rep)%nat
  ∧ total rep = length (scan old_table).
Proof.
  intros [H|[H|H]].
  - eapply migrate_tally, H.
  - eapply migrate_tally, H.
  - unfold migrate_transactions.migrate_transactions in H.
    destruct scan_fails; [discriminate|].
    pose proof (migrate_loop_tally v1_new_item envs (scan old_table) 0
                  (create_transactions_table_in existing) 0%nat 0%nat) as Ht.
    destruct (migrate_loop v1_new_item envs 0 (scan old_table)
                (create_transactions_table_in existing) 0%nat 0%nat) as [[t' m] e].
    injection H as <-. simpl in *. split; [lia|reflexivity].
Qed.

(** ** The count of the new table *)

Lemma strip_None_get_any new_item k : get k (strip_None new_item) = get k new_item.
Proof.
  unfold get, strip_None.
  destruct (new_item !! k) as [v|] eqn:Hk.
  - destruct (decide (v = VNone)) as [->|Hv].
    + rewrite map_lookup_filter_None_2; [reflexivity|].
      right. intros x Hx Hp. simpl in Hp. congruence.
    + rewrite (map_lookup_filter_Some_2 _ _ _ _ Hk); [reflexivity|exact Hv].
  - rewrite map_lookup_filter_None_2; [reflexivity|auto].
Qed.

(** When the items written carry the transaction ids of the legacy items
    and these differ from one another and from the ids in the table, every
    write adds an item. *)
Lemma migrate_loop_count new_item_of envs old_items :
  ∀ i t m e,
    "transaction_id" ∈ key_schema t ->
    NoDup (get "transaction_id" <$> old_items) ->
    (∀ w item, w ∈ items t -> item ∈ old_items ->
       get "transaction_id" w ≠ get "transaction_id" item) ->
    (∀ ie item w, item ∈ old_items -> new_item_of ie item = Ok (Some w) ->
       get "transaction_id" w = get "transaction_id" item) ->
    (count (migrate_loop new_item_of envs i old_items t m e).1.1 + m
     = count t + (migrate_loop new_item_of envs i old_items t m e).1.2)%nat.
Proof.
  induction old_items as [|item rest IH]; intros i t m e Hks Hnd Hdis Hid; simpl; [lia|].
  apply NoDup_cons in Hnd as [Hitem Hnd].
  assert (Hid' : ∀ ie it w, it ∈ rest -> new_item_of ie it = Ok (Some w) ->
                   get "transaction_id" w = get "transaction_id" it)
    by (intros ie it w Hin; apply Hid, list_elem_of_further, Hin).
  assert (Hdis' : ∀ w it, w ∈ items t -> it ∈ rest ->
                    get "transaction_id" w ≠ get "transaction_id" it)
    by (intros w it Hw Hin; apply Hdis; [exact Hw|apply list_elem_of_further, Hin]).
  unfold write_item.
  destruct (new_item_of (envs i) item) as [[w|]|] eqn:Hnew;
    [destruct (put_fails (envs i))| |]; try (apply IH; assumption).
  assert (Hfresh : key_of (key_schema t) w ∉ key_of (key_schema t) <$> items t).
  { intros Hin. apply list_elem_of_fmap in Hin as (x & Heq & Hx).
    apply (Hdis x item Hx); [apply list_elem_of_here|].
    symmetry in Heq. apply (key_of_attr _ "transaction_id") in Heq; [|exact Hks].
    rewrite Heq. apply (Hid (envs i)); [apply list_elem_of_here|exact Hnew]. }
  assert (Hcount : count (put_item w t) = S (count t)).
  { unfold count, put_item. simpl. rewrite upsert_fresh by exact Hfresh.
    rewrite length_app. simpl. lia. }
  pose proof (IH (S i) (put_item w t) (S m) e) as Hrest.
  rewrite Hcount in Hrest.
  enough ((count (migrate_loop new_item_of envs (S i) rest (put_item w t) (S m) e).1.1
           + S m
           = S (count t)
             + (migrate_loop new_item_of envs (S i) rest (put_item w t) (S m) e).1.2)%nat)
    by lia.
  apply Hrest; [exact Hks|exact Hnd| |exact Hid'].
  intros x it Hx Hin. unfold put_item in Hx. simpl in Hx.
  rewrite upsert_fresh in Hx by exact Hfresh.
  apply elem_of_app in Hx as [Hx|Hx]; [apply Hdis'; assumption|].
  apply list_elem_of_singleton in Hx. subst x.
  rewrite (Hid (envs i) item w); [|apply list_elem_of_here|exact Hnew].
  intros Heq. apply Hitem. rewrite Heq.
  apply list_elem_of_fmap. exists it. split; [reflexivity|exact Hin].
Qed.

Lemma v3_item_id Decimal ie item s w :
  get "transaction_id" item = VStr s -> s ≠ "" ->
  v3_item Decimal ie item = Ok (Some w) ->
  get "transaction_id" w = VStr s.
Proof.
  intros Hs Hne. unfold v3_item, v3_new_item. rewrite Hs.
  assert (Ht : truthy (VStr s) = true)
    by (simpl; apply negb_true_iff, String.eqb_neq, Hne).
  rewrite Ht.
  destruct (v3_resolve_member_id item) as [owner|]; [|discriminate].
  unfold mbind at 1 2 3. unfold result_bind at 1 2 3.
  match goal with
  | |- context [build_item ?D ?e ?a ?b ?c ?d ?f ?g] =>
      destruct (build_item D e a b c d f g) as [d0|] eqn:Hb; [|discriminate]
  end.
  intros [= <-]. apply build_item_owner in Hb as [_ Hid].
  apply (strip_None_get _ _ _ Hid).
Qed.

(** X11: when the legacy items have transaction ids that are non-empty
    strings and differ from one another, and the v3 script makes the new
    table itself, the number of items in the new table after the run is
    the number the tally gives as migrated; the count of the verification,
    when it is made, is that number. *)
Theorem v3_count_is_migrated Decimal envs verify_fails old_table t rep :
  Forall (fun item => ∃ s, get "transaction_id" item = VStr s ∧ s ≠ "") (scan old_table) ->
  NoDup (get "transaction_id" <$> scan old_table) ->
  migrate_fixed_v3.migrate_transactions Decimal envs false verify_fails old_table None
    = (t, Some rep) ->
  count t = migrated_count rep
  ∧ (new_count rep = None ∨ new_count rep = Some (migrated_count rep)).
Proof.
  intros Hids Hnd. unfold migrate_fixed_v3.migrate_transactions, migrate.
  pose proof (migrate_loop_count (v3_item Decimal) envs (scan old_table) 0
                (create_new_table None) 0%nat 0%nat) as Hcount.
  destruct (migrate_loop (v3_item Decimal) envs 0 (scan old_table) (create_new_table None)
              0%nat 0%nat) as [[t' m] e].
  intros [= <- <-]. simpl in Hcount. cbn [migrated_count new_count].
  assert (Hc : count t' = m).
  { rewrite Nat.add_0_r in Hcount. apply Hcount.
    - apply list_elem_of_further, list_elem_of_here.
    - exact Hnd.
    - intros w item Hw. inversion Hw.
    - intros ie item w Hin Hnew. rewrite Forall_forall in Hids.
      destruct (Hids item Hin) as (s & Hs & Hne).
      rewrite Hs. eapply v3_item_id; eassumption. }
  split; [exact Hc|].
  destruct ((0 <? m)%nat && negb verify_fails); [right; rewrite Hc|left]; reflexivity.
Qed.

(** ** What the scripts keep of a legacy item *)

Lemma build_item_value Decimal ie member_id transaction_id amount timestamp
    signature_s3_key service_notes d :
  build_item Decimal ie member_id transaction_id amount timestamp
    signature_s3_key service_notes = Ok d ->
  ∃ amount',
    coerce_amount Decimal amount = Ok amount'
    ∧ d = <["member_id" := VStr (str member_id)]>
          (<["transaction_id" := VStr (str transaction_id)]>
          (<["amount" := amount']>
          (<["timestamp" := if truthy timestamp then timestamp else VStr (now ie)]>
          (<["signature_s3_key" := signature_s3_key]>
          (<["service_notes" := service_notes]> ∅))))).
Proof.
  unfold build_item, mbind, result_bind.
  destruct (coerce_amount Decimal amount) as [amount'|]; [|discriminate].
  intros [= <-]. eauto.
Qed.

(** X12: the item the v3 script writes keeps the transaction id of a legacy
    item that has one, its amount (zero when there is none), its timestamp
    (the time of the run when there is none), its signature key and its
    note, and has no attribute besides these and the owner. *)
Theorem v3_keeps_values Decimal ie item w :
  v3_new_item Decimal ie item = Ok w ->
  (∀ s, get "transaction_id" item = VStr s -> s ≠ "" -> get "transaction_id" w = VStr s)
  ∧ (∀ z, get "amount" item = VNum z -> get "amount" w = VNum z)
  ∧ (get "amount" item = VNone -> get "amount" w = VNum 0)
  ∧ get "timestamp" w
    = (if truthy (get "timestamp" item) then get "timestamp" item else VStr (now ie))
  ∧ get "signature_s3_key" w = get "signature_s3_key" item
  ∧ get "service_notes" w = get "service_notes" item
  ∧ (∀ k, is_Some (w !! k) ->
       k ∈ ["member_id"; "transaction_id"; "amount"; "timestamp";
            "signature_s3_key"; "service_notes"]).
Proof.
  unfold v3_new_item. intros H.
  destruct (v3_resolve_member_id item) as [owner|]; [|discriminate H].
  unfold mbind at 1 2 in H. unfold result_bind at 1 2 in H.
  match type of H with
  | context [build_item ?D ?e ?a ?b ?c ?d ?f ?g] =>
      destruct (build_item D e a b c d f g) as [d0|] eqn:Hb; [|discriminate H]
  end.
  injection H as <-.
  apply build_item_value in Hb as (amount' & Hamount & ->).
  repeat apply conj.
  - intros s Hs Hne. rewrite strip_None_get_any. unfold get at 1.
    rewrite lookup_insert_ne, lookup_insert_eq by discriminate.
    rewrite Hs. simpl. apply String.eqb_neq in Hne. rewrite Hne. reflexivity.
  - intros z Hz. rewrite strip_None_get_any. unfold get at 1.
    rewrite !lookup_insert_ne, lookup_insert_eq by discriminate.
    rewrite Hz in Hamount. injection Hamount as <-. reflexivity.
  - intros Hz. rewrite strip_None_get_any. unfold get at 1.
    rewrite !lookup_insert_ne, lookup_insert_eq by discriminate.
    rewrite Hz in Hamount. injection Hamount as <-. reflexivity.
  - rewrite strip_None_get_any. unfold get at 1.
    rewrite !lookup_insert_ne, lookup_insert_eq by discriminate. reflexivity.
  - rewrite strip_None_get_any. unfold get at 1.
    rewrite !lookup_insert_ne, lookup_insert_eq by discriminate. reflexivity.
  - rewrite strip_None_get_any. unfold get at 1.
    rewrite !lookup_insert_ne, lookup_insert_eq by discriminate. reflexivity.
  - intros k [v Hv]. apply strip_None_lookup in Hv as [_ Hv].
    repeat (apply lookup_insert_Some in Hv as [[<- _]|[_ Hv]];
            [repeat (first [apply list_elem_of_here|apply list_elem_of_further])|]).
    rewrite lookup_empty in Hv. discriminate Hv.
Qed.

(** X13: the v3 script cannot make a placeholder owner for an item without
    transaction id: an item with no owner, no signature key and no
    transaction id raises [TypeError], is counted as an error and leaves
    the new table as it was, although for an item with an owner the script
    draws the missing transaction id itself. *)
Theorem v3_placeholder_needs_an_id Decimal ie item new_table :
  (get "member_id" item = VNone ->
   truthy (get "signature_s3_key" item) = false ->
   get "transaction_id" item = VNone ->
   v3_item Decimal ie item = Raise TypeError
   ∧ write_item ie (v3_item Decimal ie item) new_table = (new_table, false, true))
  ∧ (∀ m amount,
       get "member_id" item = VStr m ->
       get "transaction_id" item = VNone ->
       coerce_amount Decimal (get "amount" item) = Ok amount ->
       ∃ w, v3_item Decimal ie item = Ok (Some w)
            ∧ get "member_id" w = VStr m
            ∧ get "transaction_id" w = VStr (uuid4 ie)).
Proof.
  split.
  - intros Hm Hk Ht.
    assert (Hraise : v3_item Decimal ie item = Raise TypeError).
    { unfold v3_item, v3_new_item, v3_resolve_member_id. rewrite Hm, Hk, Ht. reflexivity. }
    split; [exact Hraise|]. rewrite Hraise. reflexivity.
  - intros m amount Hm Ht Hamount.
    unfold v3_item, v3_new_item, v3_resolve_member_id, build_item.
    rewrite Hm, Ht, Hamount. unfold is_None, truthy, mbind, result_bind.
    eexists. split; [reflexivity|].
    rewrite !strip_None_get_any. split; reflexivity.
Qed.

(** ** The search for members *)

Lemma contains_empty s : PyStr.contains "" s = true.
Proof. destruct s; reflexivity. Qed.

Lemma filter_all {A} (P : A -> Prop) `{∀ x, Decision (P x)} (l : list A) :
  (∀ x, P x) -> filter P l = l.
Proof.
  intros HP. induction l as [|x l IH]; [reflexivity|].
  rewrite filter_cons_True by apply HP. rewrite IH. reflexivity.
Qed.

(** X14: the search with the empty term answers every member of the table,
    so the number the dashboard shows is the number of members; when the
    scan fails the search answers no member and the dashboard shows zero. *)
Theorem search_empty_term_finds_all lower t st :
  lower "" = "" ->
  search_members lower false t "" = (map_to_list t).*2
  ∧ length (search_members lower false t "") = size t
  ∧ (∀ term, search_members lower true t term = [])
  ∧ (members_table st = Some t ->
     member_count lower false st = Some (size t)
     ∧ member_count lower true st = Some 0%nat).
Proof.
  intros Hlower.
  assert (Hall : search_members lower false t "" = (map_to_list t).*2).
  { unfold search_members. apply filter_all. intros m.
    rewrite Hlower, contains_empty. reflexivity. }
  assert (Hlen : length (search_members lower false t "") = size t)
    by (rewrite Hall, length_fmap; apply length_map_to_list).
  repeat apply conj; [exact Hall|exact Hlen|reflexivity|].
  intros Hmt. unfold member_count. rewrite Hmt, Hlen. split; reflexivity.
Qed.

(** ** The first script and [recreate_table_fixed] *)

Lemma Ok_Some_inj {A} (a b : A) : Ok (Some a) = Ok (Some b) -> a = b.
Proof. intros H. injection H as H. exact H. Qed.

(** X15: the first migration script skips an item exactly when its owner
    or its transaction id is missing, null or empty; the item it writes
    otherwise has the legacy item's owner, transaction id, signature key
    and note, and its amount and timestamp, which are 0 and the empty text
    when the legacy item has no such attribute. *)
Theorem v1_copies_values ie item :
  (v1_new_item ie item = Ok None
   <-> truthy (get "member_id" item) = false ∨ truthy (get "transaction_id" item) = false)
  ∧ (∀ w, v1_new_item ie item = Ok (Some w) ->
       get "member_id" w = get "member_id" item
       ∧ get "transaction_id" w = get "transaction_id" item
       ∧ get "signature_s3_key" w = get "signature_s3_key" item
       ∧ get "service_notes" w = get "service_notes" item
       ∧ get "amount" w = default (VNum 0) (item !! "amount")
       ∧ get "timestamp" w = default (VStr "") (item !! "timestamp")).
Proof.
  unfold v1_new_item. split.
  - destruct (truthy (get "member_id" item)), (truthy (get "transaction_id" item));
      simpl; split; intros H; try reflexivity; try discriminate H; auto;
      destruct H as [H|H]; discriminate H.
  - intros w H.
    destruct (negb (truthy (get "member_id" item)) || negb (truthy (get "transaction_id" item)));
      [discriminate H|].
    apply Ok_Some_inj in H. subst w. rewrite !strip_None_get_any.
    repeat apply conj.
    + unfold get at 1. rewrite lookup_insert_eq. reflexivity.
    + unfold get at 1. rewrite lookup_insert_ne, lookup_insert_eq by discriminate.
      reflexivity.
    + unfold get at 1. rewrite !lookup_insert_ne, lookup_insert_eq by discriminate.
      reflexivity.
    + unfold get at 1. rewrite !lookup_insert_ne, lookup_insert_eq by discriminate.
      reflexivity.
    + unfold get at 1. rewrite !lookup_insert_ne, lookup_insert_eq by discriminate.
      reflexivity.
    + unfold get at 1. rewrite !lookup_insert_ne, lookup_insert_eq by discriminate.
      reflexivity.
Qed.

Lemma recreate_new_item_missing item k :
  k ∈ ["member_id"; "transaction_id"; "amount"; "timestamp"] ->
  item !! k = None ->
  ∃ k', k' ∈ ["member_id"; "transaction_id"; "amount"; "timestamp"]
        ∧ recreate_table_fixed.new_item_of item = Raise (KeyError k').
Proof.
  intros Hk Hnone.
  unfold recreate_table_fixed.new_item_of, subscript, mbind, result_bind.
  destruct (item !! "member_id") eqn:H1;
    [|exists "member_id"; split; [apply list_elem_of_here|reflexivity]].
  destruct (item !! "transaction_id") eqn:H2;
    [|exists "transaction_id"; split;
      [apply list_elem_of_further, list_elem_of_here|reflexivity]].
  destruct (item !! "amount") eqn:H3;
    [|exists "amount"; split;
      [do 2 apply list_elem_of_further; apply list_elem_of_here|reflexivity]].
  destruct (item !! "timestamp") eqn:H4;
    [|exists "timestamp"; split;
      [do 3 apply list_elem_of_further; apply list_elem_of_here|reflexivity]].
  exfalso.
  repeat (apply elem_of_cons in Hk as [->|Hk]; [congruence|]).
  inversion Hk.
Qed.

Lemma recreate_new_item_present item m t a ts :
  item !! "member_id" = Some m ->
  item !! "transaction_id" = Some t ->
  item !! "amount" = Some a ->
  item !! "timestamp" = Some ts ->
  recreate_table_fixed.new_item_of item
  = Ok (strip_None
      (<["member_id" := m]> (<["transaction_id" := t]> (<["amount" := a]>
      (<["timestamp" := ts]>
      (<["service_notes" := default (VStr "") (item !! "service_notes")]>
      (<["signature_s3_key" := get "signature_s3_key" item]> ∅))))))).
Proof.
  intros H1 H2 H3 H4.
  unfold recreate_table_fixed.new_item_of, subscript, mbind, result_bind.
  rewrite H1, H2, H3, H4. reflexivity.
Qed.

(** One turn of the loop of [recreate_table_fixed], by what the item gives. *)
Lemma recreate_step envs i item rest new_table migrated_count :
  recreate_table_fixed.migrate_items envs i (item :: rest) new_table migrated_count
  = match recreate_table_fixed.new_item_of item with
    | Ok new_item =>
        if put_fails (envs i)
        then recreate_table_fixed.migrate_items envs (S i) rest new_table migrated_count
        else recreate_table_fixed.migrate_items envs (S i) rest
               (put_item new_item new_table) (S migrated_count)
    | Raise _ =>
        recreate_table_fixed.migrate_items envs (S i) rest new_table migrated_count
    end.
Proof. reflexivity. Qed.

(** X16: the loop of [recreate_table_fixed] passes over a legacy item that
    lacks the owner, the transaction id, the amount or the timestamp: the
    item raises [KeyError], nothing is written and nothing is counted.  It
    also passes over any item whose write the store refuses.  An item that
    has the four attributes, the owner and the transaction id being
    strings, is put in the new table and counted when the store accepts
    the write; the item put has the legacy item's owner, transaction id,
    amount, timestamp and signature key, and its note, the empty text when
    the legacy item has none. *)
Theorem recreate_needs_four_attributes envs i item rest new_table migrated_count :
  (∀ k, k ∈ ["member_id"; "transaction_id"; "amount"; "timestamp"] ->
        item !! k = None ->
        (∃ k', k' ∈ ["member_id"; "transaction_id"; "amount"; "timestamp"]
               ∧ recreate_table_fixed.new_item_of item = Raise (KeyError k'))
        ∧ recreate_table_fixed.migrate_items envs i (item :: rest) new_table migrated_count
          = recreate_table_fixed.migrate_items envs (S i) rest new_table migrated_count)
  ∧ (put_fails (envs i) = true ->
     recreate_table_fixed.migrate_items envs i (item :: rest) new_table migrated_count
     = recreate_table_fixed.migrate_items envs (S i) rest new_table migrated_count)
  ∧ (∀ m t,
       item !! "member_id" = Some (VStr m) ->
       item !! "transaction_id" = Some (VStr t) ->
       is_Some (item !! "amount") ->
       is_Some (item !! "timestamp") ->
       put_fails (envs i) = false ->
       ∃ w,
         recreate_table_fixed.migrate_items envs i (item :: rest) new_table migrated_count
         = recreate_table_fixed.migrate_items envs (S i) rest
             (put_item w new_table) (S migrated_count)
         ∧ w ∈ items (put_item w new_table)
         ∧ get "member_id" w = VStr m
         ∧ get "transaction_id" w = VStr t
         ∧ get "amount" w = get "amount" item
         ∧ get "timestamp" w = get "timestamp" item
         ∧ get "signature_s3_key" w = get "signature_s3_key" item
         ∧ get "service_notes" w = default (VStr "") (item !! "service_notes")).
Proof.
  split; [|split].
  - intros k Hk Hnone.
    destruct (recreate_new_item_missing item k Hk Hnone) as (k' & Hk' & Hraise).
    split; [eauto|]. rewrite recreate_step, Hraise. reflexivity.
  - intros Hfail. rewrite recreate_step, Hfail.
    destruct (recreate_table_fixed.new_item_of item); reflexivity.
  - intros m t Hm Ht [a Ha] [ts Hts] Hput.
    pose proof (recreate_new_item_present item _ _ _ _ Hm Ht Ha Hts) as Hnew.
    assert (Hga : get "amount" item = a) by (unfold get; rewrite Ha; reflexivity).
    assert (Hgts : get "timestamp" item = ts) by (unfold get; rewrite Hts; reflexivity).
    exists (strip_None
      (<["member_id" := VStr m]> (<["transaction_id" := VStr t]> (<["amount" := a]>
      (<["timestamp" := ts]>
      (<["service_notes" := default (VStr "") (item !! "service_notes")]>
      (<["signature_s3_key" := get "signature_s3_key" item]> ∅))))))).
    split; [rewrite recreate_step, Hnew, Hput; reflexivity|].
    split; [apply upsert_elem|].
    rewrite Hga, Hgts. rewrite !strip_None_get_any.
    repeat apply conj.
    + unfold get at 1. rewrite lookup_insert_eq. reflexivity.
    + unfold get at 1. rewrite lookup_insert_ne, lookup_insert_eq by discriminate.
      reflexivity.
    + unfold get at 1. rewrite !lookup_insert_ne, lookup_insert_eq by discriminate.
      reflexivity.
    + unfold get at 1. rewrite !lookup_insert_ne, lookup_insert_eq by discriminate.
      reflexivity.
    + unfold get at 1. rewrite !lookup_insert_ne, lookup_insert_eq by discriminate.
      reflexivity.
    + unfold get at 1. rewrite !lookup_insert_ne, lookup_insert_eq by discriminate.
      reflexivity.
Qed.

(** ** The owner taken from any key that mentions the signature folder *)

Lemma prefix_inv p s : String.prefix p s = true -> ∃ r, s = p +:+ r.
Proof.
  revert s. induction p as [|c p IH]; intros s H.
  - exists s. reflexivity.
  - destruct s as [|c' s]; simpl in H; [discriminate H|].
    destruct (Ascii.ascii_dec c c') as [->|_]; [|discriminate H].
    destruct (IH s H) as [r ->]. exists r. reflexivity.
Qed.

Lemma mem_app_here c p r : PyStr.mem c (p +:+ String c r) = true.
Proof.
  induction p as [|c' p IH]; simpl.
  - rewrite Ascii.eqb_refl. reflexivity.
  - rewrite IH. apply orb_true_r.
Qed.

Lemma contains_signatures_mem s :
  PyStr.contains "signatures/" s = true -> PyStr.mem "/"%char s = true.
Proof.
  induction s as [|c s IH]; intros H.
  - discriminate H.
  - change (PyStr.contains "signatures/" (String c s))
      with (String.prefix "signatures/" (String c s) || PyStr.contains "signatures/" s) in H.
    apply orb_true_iff in H as [H|H].
    + destruct (prefix_inv _ _ H) as [r ->].
      change ("signatures/" +:+ r) with ("signatures" +:+ String "/"%char r).
      apply mem_app_here.
    + simpl. rewrite (IH H). apply orb_true_r.
Qed.

Lemma split_length sep s : (1 <= length (PyStr.split sep s))%nat.
Proof.
  induction s as [|c s IH]; simpl; [lia|].
  destruct (Ascii.eqb c sep); simpl; [lia|].
  destruct (PyStr.split sep s); simpl in *; lia.
Qed.

Lemma mem_split_length sep s :
  PyStr.mem sep s = true -> (2 <= length (PyStr.split sep s))%nat.
Proof.
  induction s as [|c s IH]; simpl; intros H; [discriminate H|].
  destruct (Ascii.eqb c sep); simpl.
  - pose proof (split_length sep s). lia.
  - simpl in H. specialize (IH H).
    destruct (PyStr.split sep s); simpl in *; lia.
Qed.

(** X20: for a legacy item without owner, the v3 script takes the second
    piece between slashes of any signature key that has [signatures/]
    somewhere in it, wherever that is; a key with a folder in front of
    [signatures/] gives the owner [signatures]. *)
Theorem v3_takes_second_segment item key :
  get "member_id" item = VNone ->
  get "signature_s3_key" item = VStr key ->
  PyStr.contains "signatures/" key = true ->
  v3_resolve_member_id item = Ok (VStr (nth 1 (PyStr.split "/"%char key) ""))
  ∧ (2 <= length (PyStr.split "/"%char key))%nat.
Proof.
  intros Hm Hk Hc.
  pose proof (mem_split_length _ _ (contains_signatures_mem _ Hc)) as Hlen.
  split; [|exact Hlen].
  unfold v3_resolve_member_id. rewrite Hm, Hk.
  assert (Ht : truthy (VStr key) = true) by (destruct key; [discriminate Hc|reflexivity]).
  rewrite Ht. unfold contains_signatures, str, mbind, result_bind, is_None.
  rewrite Hc. apply Nat.leb_le in Hlen. rewrite Hlen. reflexivity.
Qed.

(** ** Deleting a member and adding it again *)

Lemma confirm_delete_session e st mtab id :
  members_table st = Some mtab ->
  fails e DeleteMember = false ->
  (confirm_delete e st id).1.1
  = Session (Some (delete id mtab)) (transactions_table st) (bucket st) (current_member st)
  ∧ (confirm_delete e st id).1.2 = [success_member_deleted].
Proof.
  intros Hmt Hdel. unfold confirm_delete, AWSClient.delete_member. rewrite Hmt, Hdel.
  destruct (transactions_table st) as [ttab|]; [|split; reflexivity].
  pose proof (delete_transactions_table ttab
                (AWSClient.get_member_transactions (fails e GetMemberTransactions) ttab id))
    as Htab.
  destruct (delete_transactions ttab _) as [ttab' raised]. simpl in Htab. subst ttab'.
  split; reflexivity.
Qed.

(** X17: a confirmed deletion that the store accepts removes the member
    record and no other, and leaves the sum of the transactions of every
    owner, the deleted one included, as it was: the transactions of the
    member outlive the member. *)
Theorem confirm_delete_removes_member_only e st mtab id :
  members_table st = Some mtab ->
  fails e DeleteMember = false ->
  stored_balance id (confirm_delete e st id).1.1 = None
  ∧ (∀ id', id' ≠ id ->
       stored_balance id' (confirm_delete e st id).1.1 = stored_balance id' st)
  ∧ (∀ id', ledger_sum id' (confirm_delete e st id).1.1 = ledger_sum id' st)
  ∧ (confirm_delete e st id).1.2 = [success_member_deleted].
Proof.
  intros Hmt Hdel.
  destruct (confirm_delete_session e st mtab id Hmt Hdel) as [-> ->].
  unfold stored_balance, ledger_sum. cbn [members_table transactions_table].
  rewrite Hmt. repeat apply conj; try reflexivity.
  - rewrite lookup_delete_eq. reflexivity.
  - intros id' Hne. rewrite lookup_delete_ne by congruence. reflexivity.
Qed.

(** X18: when a member is deleted and a member is added again under the
    same card id with initial balance B, all calls to the store going well,
    the new member has balance B, and the transactions of the owner sum up
    to B plus what the transactions of the deleted member summed up to. *)
Theorem readded_member_inherits_transactions e1 e2 st mtab ttab id name top_up_date B :
  members_table st = Some mtab ->
  transactions_table st = Some ttab ->
  fails e1 DeleteMember = false ->
  id ≠ "" -> name ≠ "" ->
  fails e2 AddMember = false ->
  fails e2 AddTransaction = false ->
  unused_id (tx_uuid4 e2) st ->
  stored_balance id
    (add_member_form e2 (confirm_delete e1 st id).1.1 id name top_up_date B).1 = Some B
  ∧ ledger_sum id
      (add_member_form e2 (confirm_delete e1 st id).1.1 id name top_up_date B).1
    = ledger_sum id st + B.
Proof.
  intros Hmt Htt Hdel Hid Hname Hadd Htx Hunused.
  destruct (confirm_delete_session e1 st mtab id Hmt Hdel) as [-> _].
  unfold unused_id in Hunused. rewrite Htt in Hunused. destruct Hunused as [Hks Hfresh].
  unfold add_member_form, AWSClient.get_member, AWSClient.add_member,
    AWSClient.add_transaction.
  apply String.eqb_neq in Hid. apply String.eqb_neq in Hname.
  cbn [members_table transactions_table].
  rewrite Hid, Hname, lookup_delete_eq, Hadd, Htt, Htx.
  replace (if fails e2 GetMember then None else None) with (@None member)
    by (destruct (fails e2 GetMember); reflexivity).
  cbn [orb fst snd]. unfold stored_balance, ledger_sum.
  cbn [members_table transactions_table fst].
  split.
  - rewrite lookup_insert_eq. reflexivity.
  - rewrite Htt, owned_put_fresh, decide_True by (reflexivity || assumption). reflexivity.
Qed.

(** * The further properties at sample inputs *)

Lemma second_add_member_rejected_witness :
  add_member_form env_ok2 session_M1 "M1" "Eve" "2024-05-02" 5
  = (session_M1, [error_card_exists]).
Proof.
  apply (second_add_member_rejected env_ok env_ok2 fresh_session "M1" "Ann" "2024-05-01"
           100 session_M1 "Eve" "2024-05-02" 5); [reflexivity|reflexivity|discriminate].
Defined.

Lemma add_member_form_writes_on_success_witness :
  (add_member_form env_ok fresh_session "" "Ann" "2024-05-01" 100).1 = fresh_session.
Proof.
  apply (add_member_form_writes_on_success env_ok fresh_session "" "Ann" "2024-05-01" 100).
  discriminate.
Defined.

Lemma failed_write_changes_no_balance_witness :
  members_table (transaction_form env_write_fails (select_member member_M1 session_M1)
                   charge 30 "massage" (Some "iVBORw0KGgo=")).1
    = members_table (select_member member_M1 session_M1)
  ∧ transactions_table (transaction_form env_write_fails (select_member member_M1 session_M1)
                          charge 30 "massage" (Some "iVBORw0KGgo=")).1
    = transactions_table (select_member member_M1 session_M1)
  ∧ current_member (transaction_form env_write_fails (select_member member_M1 session_M1)
                      charge 30 "massage" (Some "iVBORw0KGgo=")).1
    = current_member (select_member member_M1 session_M1).
Proof.
  apply (failed_write_changes_no_balance env_write_fails
           (select_member member_M1 session_M1) charge 30 "massage" (Some "iVBORw0KGgo=")).
  reflexivity.
Defined.

Lemma unused_in_session_M1 u :
  u ≠ "tx-1" -> unused_id u (select_member member_M1 session_M1).
Proof.
  intros Hu. split; [apply list_elem_of_here|]. intros it Hit.
  apply list_elem_of_singleton in Hit. subst it.
  change (get "transaction_id"
            (AWSClient.transaction_item "tx-1" "2024-05-01T10:00:01" "M1" 100 None
               (Some initial_top_up_notes))) with (VStr "tx-1").
  intros [= Heq]. apply Hu. symmetry. exact Heq.
Defined.

Lemma failed_update_leaves_orphan_witness :
  stored_balance "M1"
    (transaction_form env_update_fails (select_member member_M1 session_M1)
       charge 30 "massage" None).1 = Some 100
  ∧ ledger_sum "M1"
      (transaction_form env_update_fails (select_member member_M1 session_M1)
         charge 30 "massage" None).1
    = ledger_sum "M1" (select_member member_M1 session_M1) + signed_amount charge 30
  ∧ last (transaction_form env_update_fails (select_member member_M1 session_M1)
            charge 30 "massage" None).2 = Some error_balance_update_failed.
Proof.
  apply (failed_update_leaves_orphan env_update_fails (select_member member_M1 session_M1)
           member_M1 (<["M1" := member_M1]> ∅)
           (put_item (AWSClient.transaction_item "tx-1" "2024-05-01T10:00:01" "M1" 100 None
                        (Some initial_top_up_notes)) AWSClient.create_transactions_table)
           member_M1 charge 30 "massage" None);
    try reflexivity; try discriminate.
  apply unused_in_session_M1. discriminate.
Defined.

Lemma charge_without_signature_witness :
  bucket (transaction_form env_upload_fails (select_member member_M1 session_M1)
            charge 30 "massage" (Some "iVBORw0KGgo=")).1
    = bucket (select_member member_M1 session_M1)
  ∧ transactions_table
      (transaction_form env_upload_fails (select_member member_M1 session_M1)
         charge 30 "massage" (Some "iVBORw0KGgo=")).1
    = Some (put_item (AWSClient.transaction_item (tx_uuid4 env_upload_fails)
                        (tx_now env_upload_fails) (card_id member_M1)
                        (- Z.abs 30) None (Some "massage"))
              (put_item (AWSClient.transaction_item "tx-1" "2024-05-01T10:00:01" "M1" 100
                           None (Some initial_top_up_notes))
                 AWSClient.create_transactions_table))
  ∧ stored_balance (card_id member_M1)
      (transaction_form env_upload_fails (select_member member_M1 session_M1)
         charge 30 "massage" (Some "iVBORw0KGgo=")).1
    = Some (balance member_M1 - Z.abs 30)
  ∧ (transaction_form env_upload_fails (select_member member_M1 session_M1)
       charge 30 "massage" (Some "iVBORw0KGgo=")).2
    = [error_signature_failed; info_transaction_created (Some (tx_uuid4 env_upload_fails));
       success_new_balance (balance member_M1 - Z.abs 30)].
Proof.
  apply (charge_without_signature env_upload_fails (select_member member_M1 session_M1)
           member_M1 (<["M1" := member_M1]> ∅)
           (put_item (AWSClient.transaction_item "tx-1" "2024-05-01T10:00:01" "M1" 100 None
                        (Some initial_top_up_notes)) AWSClient.create_transactions_table)
           member_M1 30 "massage" "iVBORw0KGgo=");
    try reflexivity; discriminate.
Defined.

Lemma uploaded_key_recovers_owner_witness :
  v3_resolve_member_id (<["signature_s3_key" := VStr "signatures/00042/u-7.png"]> ∅)
  = Ok (VStr "00042").
Proof.
  apply (uploaded_key_recovers_owner false "u-7" ∅ "QUJD" "00042"
           "signatures/00042/u-7.png"); reflexivity.
Defined.

Lemma upload_signature_body_witness :
  AWSClient.upload_signature false "u-7" ∅ ("data:image/png;base64," +:+ "QUJD") "00042"
  = (<["signatures/" +:+ "00042" +:+ "/" +:+ "u-7" +:+ ".png" := "QUJD"]> ∅,
     Some ("signatures/" +:+ "00042" +:+ "/" +:+ "u-7" +:+ ".png")).
Proof.
  apply (proj1 (upload_signature_body "u-7" ∅ "QUJD" "00042")). reflexivity.
Defined.

Lemma migrated_table_has_no_history_witness :
  AWSClient.get_member_transactions (fails env_ok GetMemberTransactions)
    (migrate_fixed_v3.migrate_transactions no_text_amount envs_ok false false
       legacy_table None).1 "00007" = []
  ∧ query_member_transactions env_ok
      (Session (Some ∅)
         (Some (create_transactions_table_in
                  (Some (migrate_fixed_v3.migrate_transactions no_text_amount envs_ok
                           false false legacy_table None).1)))
         ∅ None) "00007" = [].
Proof.
  apply (migrated_table_has_no_history no_text_amount envs_ok false false false
           legacy_table None env_ok (Some ∅) ∅ None "00007").
  left. reflexivity.
Defined.

Example migrated_item_is_there :
  length (items (migrate_fixed_v3.migrate_transactions no_text_amount envs_ok false false
                   legacy_table None).1) = 3%nat
  ∧ get "member_id"
      <$> items (migrate_fixed_v3.migrate_transactions no_text_amount envs_ok false false
                   legacy_table None).1
    = [VStr "00042"; VStr "unknown_abcdef12"; VStr "00007"].
Proof. split; reflexivity. Qed.

Lemma tally_adds_up_witness :
  (migrated_count (Report 2 1 3 (Some 2%nat)) + errors (Report 2 1 3 (Some 2%nat))
   = total (Report 2 1 3 (Some 2%nat)))%nat
  ∧ total (Report 2 1 3 (Some 2%nat)) = length (scan legacy_table).
Proof.
  apply (tally_adds_up no_text_amount envs_partial false false legacy_table None
           (Report 2 1 3 (Some 2%nat))).
  left. reflexivity.
Defined.

Lemma v3_count_is_migrated_witness :
  count (migrate_fixed_v3.migrate_transactions no_text_amount envs_partial false false
           legacy_table None).1
    = migrated_count (Report 2 1 3 (Some 2%nat))
  ∧ (new_count (Report 2 1 3 (Some 2%nat)) = None
     ∨ new_count (Report 2 1 3 (Some 2%nat))
       = Some (migrated_count (Report 2 1 3 (Some 2%nat)))).
Proof.
  apply (v3_count_is_migrated no_text_amount envs_partial false legacy_table
           (migrate_fixed_v3.migrate_transactions no_text_amount envs_partial false false
              legacy_table None).1 (Report 2 1 3 (Some 2%nat))).
  - repeat constructor; eexists; (split; [reflexivity|discriminate]).
  - apply NoDup_cons. split.
    + intros Hin. apply elem_of_cons in Hin as [Hin|Hin]; [discriminate Hin|].
      apply list_elem_of_singleton in Hin. discriminate Hin.
    + apply NoDup_cons. split.
      * intros Hin. apply list_elem_of_singleton in Hin. discriminate Hin.
      * apply NoDup_singleton.
  - reflexivity.
Defined.

Lemma v3_keeps_values_witness :
  v3_new_item no_text_amount item_env_ok legacy_full = Ok legacy_full
  ∧ get "amount" legacy_full = VNum (-15)
  ∧ get "timestamp" legacy_full = VStr "2023-02-02T09:00:00".
Proof.
  destruct (v3_keeps_values no_text_amount item_env_ok legacy_full legacy_full)
    as (_ & Hamount & _ & Htime & _); [reflexivity|].
  split; [reflexivity|].
  split; [apply (Hamount (-15)); reflexivity|exact Htime].
Defined.

Lemma v3_placeholder_needs_an_id_witness :
  (v3_item no_text_amount item_env_ok ∅ = Raise TypeError
   ∧ write_item item_env_ok (v3_item no_text_amount item_env_ok ∅)
       (create_new_table None) = (create_new_table None, false, true))
  ∧ ∃ w, v3_item no_text_amount item_env_ok legacy_owner_only = Ok (Some w)
         ∧ get "member_id" w = VStr "00007"
         ∧ get "transaction_id" w = VStr (uuid4 item_env_ok).
Proof.
  split.
  - apply (proj1 (v3_placeholder_needs_an_id no_text_amount item_env_ok ∅
                    (create_new_table None))); reflexivity.
  - apply (proj2 (v3_placeholder_needs_an_id no_text_amount item_env_ok legacy_owner_only
                    (create_new_table None)) "00007" (VNum 0)); reflexivity.
Defined.

Lemma search_empty_term_finds_all_witness :
  search_members ascii_lower false (<["M1" := member_M1]> ∅) ""
    = (map_to_list (<["M1" := member_M1]> (∅ : members))).*2
  ∧ length (search_members ascii_lower false (<["M1" := member_M1]> ∅) "")
    = size (<["M1" := member_M1]> (∅ : members))
  ∧ (∀ term, search_members ascii_lower true (<["M1" := member_M1]> ∅) term = [])
  ∧ (members_table session_M1 = Some (<["M1" := member_M1]> ∅) ->
     member_count ascii_lower false session_M1
       = Some (size (<["M1" := member_M1]> (∅ : members)))
     ∧ member_count ascii_lower true session_M1 = Some 0%nat).
Proof.
  apply (search_empty_term_finds_all ascii_lower (<["M1" := member_M1]> ∅) session_M1).
  reflexivity.
Defined.

Example search_by_name :
  search_members ascii_lower false (<["M1" := member_M1]> ∅) "AN" = [member_M1]
  ∧ search_members ascii_lower false (<["M1" := member_M1]> ∅) "bob" = [].
Proof. split; reflexivity. Qed.

Lemma v1_copies_values_witness :
  v1_new_item item_env_ok legacy_t1 = Ok None
  ∧ get "amount" legacy_full = default (VNum 0) (legacy_full !! "amount").
Proof.
  split.
  - apply (proj1 (v1_copies_values item_env_ok legacy_t1)). left. reflexivity.
  - destruct (proj2 (v1_copies_values item_env_ok legacy_full) legacy_full)
      as (_ & _ & _ & _ & Hamount & _); [reflexivity|exact Hamount].
Defined.

Lemma recreate_needs_four_attributes_witness :
  recreate_table_fixed.migrate_items envs_ok 0 [legacy_t1; legacy_full]
    (Table ["member_id"; "transaction_id"] [] []) 0%nat
  = recreate_table_fixed.migrate_items envs_ok 1 [legacy_full]
      (Table ["member_id"; "transaction_id"] [] []) 0%nat.
Proof.
  apply (proj1 (recreate_needs_four_attributes envs_ok 0 legacy_t1 [legacy_full]
                  (Table ["member_id"; "transaction_id"] [] []) 0%nat) "member_id").
  - apply list_elem_of_here.
  - reflexivity.
Defined.

Example recreate_run :
  recreate_table_fixed.migrate_items envs_ok 0 [legacy_t1; legacy_full]
    (Table ["member_id"; "transaction_id"] [] []) 0%nat
  = (Table ["member_id"; "transaction_id"] [] [legacy_full], 1%nat).
Proof. reflexivity. Qed.

Lemma v3_takes_second_segment_witness :
  v3_resolve_member_id legacy_nested_key = Ok (VStr "signatures")
  ∧ (2 <= length (PyStr.split "/"%char "old/signatures/00042/sig.png"))%nat.
Proof.
  apply (v3_takes_second_segment legacy_nested_key "old/signatures/00042/sig.png");
    reflexivity.
Defined.

Lemma confirm_delete_removes_member_only_witness :
  stored_balance "M1" (confirm_delete env_ok session_M1 "M1").1.1 = None
  ∧ (∀ id', id' ≠ "M1" ->
       stored_balance id' (confirm_delete env_ok session_M1 "M1").1.1
       = stored_balance id' session_M1)
  ∧ (∀ id', ledger_sum id' (confirm_delete env_ok session_M1 "M1").1.1
            = ledger_sum id' session_M1)
  ∧ (confirm_delete env_ok session_M1 "M1").1.2 = [success_member_deleted].
Proof.
  apply (confirm_delete_removes_member_only env_ok session_M1 (<["M1" := member_M1]> ∅) "M1");
    reflexivity.
Defined.

Lemma readded_member_inherits_transactions_witness :
  stored_balance "M1"
    (add_member_form env_ok2 (confirm_delete env_ok session_M1 "M1").1.1
       "M1" "Ann" "2024-05-02" 50).1 = Some 50
  ∧ ledger_sum "M1"
      (add_member_form env_ok2 (confirm_delete env_ok session_M1 "M1").1.1
         "M1" "Ann" "2024-05-02" 50).1
    = ledger_sum "M1" session_M1 + 50.
Proof.
  apply (readded_member_inherits_transactions env_ok env_ok2 session_M1
           (<["M1" := member_M1]> ∅)
           (put_item (AWSClient.transaction_item "tx-1" "2024-05-01T10:00:01" "M1" 100 None
                        (Some initial_top_up_notes)) AWSClient.create_transactions_table)
           "M1" "Ann" "2024-05-02" 50);
    try reflexivity; try discriminate.
  apply (unused_in_session_M1 "tx-2"). discriminate.
Defined.

Example readded_member_sums :
  ledger_sum "M1"
    (add_member_form env_ok2 (confirm_delete env_ok session_M1 "M1").1.1
       "M1" "Ann" "2024-05-02" 50).1 = 150.
Proof. reflexivity. Qed.

Lemma stored_balances_explained_witness : ledger_sum "M1" session_M1_charged = 70.
Proof.
  apply (stored_balances_explained fresh_session session_M1_charged "M1" 70).
  - apply fresh_session_consistent.
  - eapply rtc_l.
    { apply (step_add_member fresh_session env_ok "M1" "Ann" "2024-05-01" 100
               AWSClient.create_transactions_table session_M1); try reflexivity.
      split; [apply list_elem_of_here|]. intros it Hit. inversion Hit. }
    eapply rtc_l; [apply (step_select session_M1 member_M1)|].
    eapply rtc_l; [|apply rtc_refl].
    apply (step_transaction (select_member member_M1 session_M1) env_ok2 charge 30
             "massage" (Some "iVBORw0KGgo=") session_M1_charged
             (transaction_form env_ok2 (select_member member_M1 session_M1) charge 30
                "massage" (Some "iVBORw0KGgo=")).2).
    + reflexivity.
    + exists 70. reflexivity.
    + apply unused_in_session_M1. discriminate.
  - reflexivity.
Defined.
